(** * KnowDEGs: the report script [app.py] as a shallow embedding

    The script is one straight-line Streamlit page: it reads an uploaded
    table with pandas, derives two columns, shows counts and top genes,
    queries two web services and offers the table for download.

    The embedding follows the script section by section.  pandas objects
    are modelled by what the script observes of them: a [Series] is a typed
    column, a [DataFrame] an ordered list of named columns of one length.
    Python exceptions are values of [exn]; code that may raise returns a
    [result].  The page and the network are the state of a small monad
    [M]: the widgets rendered so far and the requests sent so far.

    Calls into pandas are modelled after their documented behaviour on
    the values the script observes.  What the script cannot decide by
    itself is the environment [Env]: the CSV parser and writer, the two
    web services, numpy's logarithm, matplotlib's drawing and the text
    forms of floats and of nested values. *)

From Stdlib Require Import Ascii String.
From Stdlib Require Import List ZArith Bool Lia.
From Stdlib Require Import Floats.SpecFloat Sorting.Sorted.
From Stdlib Require DecimalString.
Import ListNotations.

Local Open Scope string_scope.
Local Open Scope list_scope.

(** ** Python values *)

(** A scalar held in a cell of a table.  A missing value is the float NaN,
    as in pandas. *)
Inductive cell :=
| CInt (z : Z)
| CFloat (f : spec_float)
| CBool (b : bool)
| CStr (s : string).

Definition NaN : cell := CFloat S754_nan.

(** A decoded JSON document, as [response.json()] returns it. *)
#[local] Set Warnings "-register-all".
Inductive json :=
| JNull
| JBool (b : bool)
| JInt (z : Z)
| JFloat (f : spec_float)
| JStr (s : string)
| JList (l : list json)
| JDict (d : list (string * json)).
#[local] Set Warnings "register-all".

(** ** Exceptions and results *)

(** The exception classes the script can meet; all of them derive from
    Python's [Exception].  [KeyError] carries the labels that were not
    found; [LibraryError] stands for an exception raised inside pandas or
    requests (ParserError, EmptyDataError, ConnectionError,
    JSONDecodeError, ...), named by its class. *)
Inductive exn :=
| KeyError (labels : list string)
| TypeError
| AttributeError
| IndexError
| LibraryError (name : string).

Inductive result (A : Type) :=
| Ok (a : A)
| Raise (e : exn).
Arguments Ok {A} a.
Arguments Raise {A} e.

Definition rbind {A B} (r : result A) (k : A -> result B) : result B :=
  match r with
  | Ok a => k a
  | Raise e => Raise e
  end.

Declare Scope result_scope.
Delimit Scope result_scope with res.
Notation "'let?' x ':=' r 'in' k" := (rbind r (fun x => k))
  (at level 10, x name, r at level 100, k at level 200) : result_scope.
Local Open Scope result_scope.

(** [[f(x) for x in l]], stopping at the first exception. *)
Fixpoint mapM {A B} (f : A -> result B) (l : list A) : result (list B) :=
  match l with
  | [] => Ok []
  | x :: l' =>
      let? y := f x in
      let? ys := mapM f l' in
      Ok (y :: ys)
  end.

(** ** Comparisons of the script *)

(** Floats are binary64 values in the normal form of [SpecFloat] (for a
    normal number a mantissa in [2^52, 2^53)), on which [SFltb], [SFleb]
    and [SFeqb] are the IEEE comparisons.  The float [1.0] has mantissa
    [2^52] and exponent [-52]. *)
Definition one : spec_float := S754_finite false 4503599627370496 (-52).

(** [x > 1] for a cell [x].  An int or a bool compares as an integer, a
    float by IEEE comparison (false on NaN), a string raises TypeError. *)
Definition gt_1 (x : cell) : result bool :=
  match x with
  | CInt z => Ok (1 <? z)%Z
  | CFloat f => Ok (SFltb one f)
  | CBool b => Ok (1 <? Z.b2z b)%Z
  | CStr _ => Raise TypeError
  end.

(** [x <= 1]. *)
Definition le_1 (x : cell) : result bool :=
  match x with
  | CInt z => Ok (z <=? 1)%Z
  | CFloat f => Ok (SFleb f one)
  | CBool b => Ok (Z.b2z b <=? 1)%Z
  | CStr _ => Raise TypeError
  end.

(** [x <= y] for two numbers of one type, as the values of a numeric
    column are. *)
Definition cell_leb (x y : cell) : bool :=
  match x, y with
  | CInt a, CInt b => (a <=? b)%Z
  | CFloat a, CFloat b => SFleb a b
  | CBool a, CBool b => implb a b
  | _, _ => false
  end.

(** [str.lower()], on the ASCII letters.  The script only compares the
    result with ["yes"]; no non-ASCII character lower-cases to one of
    [y], [e], [s], so this agrees with Python on that comparison. *)
Definition lower_char (c : ascii) : ascii :=
  let n := nat_of_ascii c in
  if andb (65 <=? n)%nat (n <=? 90)%nat then ascii_of_nat (n + 32) else c.

Fixpoint lower (s : string) : string :=
  match s with
  | EmptyString => EmptyString
  | String c s' => String (lower_char c) (lower s')
  end.

(** ** Series and DataFrame *)

(** A column with its dtype.  [Object] holds Python strings, [None] being
    a missing value. *)
Inductive Series :=
| Int64 (v : list Z)
| Float64 (v : list spec_float)
| Bool (v : list bool)
| Object (v : list (option string)).

Definition obj_cell (o : option string) : cell :=
  match o with
  | Some s => CStr s
  | None => NaN
  end.

(** The values of a column, in row order ([Series.tolist()]). *)
Definition cells (s : Series) : list cell :=
  match s with
  | Int64 v => map CInt v
  | Float64 v => map CFloat v
  | Bool v => map CBool v
  | Object v => map obj_cell v
  end.

Definition size (s : Series) : nat := length (cells s).

Definition is_numeric (s : Series) : bool :=
  match s with
  | Object _ => false
  | _ => true
  end.

(** A table: the number of rows (the length of its index) and its columns
    in header order.  Rows are identified by position. *)
Record DataFrame := mkDF {
  nrows : nat;
  columns : list (string * Series)
}.

(** Every column has one value per row, and no label occurs twice
    ([read_csv] renames duplicated headers). *)
Definition wf (df : DataFrame) : Prop :=
  Forall (fun c => size (snd c) = nrows df) (columns df) /\
  NoDup (map fst (columns df)).

Definition names (df : DataFrame) : list string := map fst (columns df).

Fixpoint lookup (c : string) (cols : list (string * Series)) : option Series :=
  match cols with
  | [] => None
  | (c', s) :: cols' => if String.eqb c c' then Some s else lookup c cols'
  end.

(** [c in df.columns] *)
Definition has_column (df : DataFrame) (c : string) : bool :=
  match lookup c (columns df) with
  | Some _ => true
  | None => false
  end.

(** [df[c]] *)
Definition getitem (df : DataFrame) (c : string) : result Series :=
  match lookup c (columns df) with
  | Some s => Ok s
  | None => Raise (KeyError [c])
  end.

Fixpoint assign (c : string) (s : Series) (cols : list (string * Series))
  : list (string * Series) :=
  match cols with
  | [] => [(c, s)]
  | (c', s') :: cols' =>
      if String.eqb c c' then (c', s) :: cols' else (c', s') :: assign c s cols'
  end.

(** [df[c] = s]: an existing column is replaced in place, a new one is
    appended. *)
Definition setitem (df : DataFrame) (c : string) (s : Series) : DataFrame :=
  mkDF (nrows df) (assign c s (columns df)).

(** [Series.apply(f)] for an [f] that returns strings. *)
Definition apply (f : cell -> result string) (s : Series) : result Series :=
  let? ys := mapM f (cells s) in
  Ok (Object (map Some ys)).

(** The values of column [c] by row, empty when there is no such column. *)
Definition column_cells (df : DataFrame) (c : string) : list cell :=
  match lookup c (columns df) with
  | Some s => cells s
  | None => []
  end.

(** ** Table loader (app.py, lines 15-22) *)

(** [lambda x: "Up" if x > 1 else "Down"] *)
Definition regulation (x : cell) : result string :=
  let? b := gt_1 x in
  Ok (if b then "Up" else "Down").

(** The augmentation that follows [pd.read_csv]. *)
Definition load_table (df : DataFrame) : result DataFrame :=
  let? fc := getitem df "log2(FC)" in
  let? reg := apply regulation fc in
  let df := setitem df "Regulation" reg in
  let df :=
    if negb (has_column df "IsHub")
    then setitem df "IsHub" (Object (repeat (Some "Unknown") (nrows df)))
    else df in
  Ok df.

(** ** Summary aggregator (app.py, lines 28-46) *)

(** [df[c] > 1] and [df[c] <= 1], element by element. *)
Definition gt_1_mask (s : Series) : result (list bool) := mapM gt_1 (cells s).
Definition le_1_mask (s : Series) : result (list bool) := mapM le_1 (cells s).

(** [s.str.lower() == "yes"].  The [.str] accessor exists on string
    columns only; a missing value compares unequal. *)
Definition is_yes (o : option string) : bool :=
  match o with
  | Some s => String.eqb (lower s) "yes"
  | None => false
  end.

Definition str_lower_eq_yes (s : Series) : result (list bool) :=
  match s with
  | Object v => Ok (map is_yes v)
  | _ => Raise AttributeError
  end.

(** The elements of [l] at which [mask] holds. *)
Fixpoint select {A} (mask : list bool) (l : list A) : list A :=
  match mask, l with
  | b :: mask', x :: l' => if b then x :: select mask' l' else select mask' l'
  | _, _ => []
  end.

(** The elements of [l] at the positions [idx], in the order of [idx]. *)
Definition take_list {A} (idx : list nat) (l : list A) : list A :=
  flat_map (fun i => match nth_error l i with Some x => [x] | None => [] end) idx.

Definition on_values (f : forall A, list A -> list A) (s : Series) : Series :=
  match s with
  | Int64 v => Int64 (f _ v)
  | Float64 v => Float64 (f _ v)
  | Bool v => Bool (f _ v)
  | Object v => Object (f _ v)
  end.

Definition on_rows (f : forall A, list A -> list A) (df : DataFrame) : DataFrame :=
  mkDF (length (f _ (seq 0 (nrows df))))
       (map (fun c => (fst c, on_values f (snd c))) (columns df)).

(** [df[mask]]: the rows at which the boolean mask holds, in table order. *)
Definition loc (df : DataFrame) (mask : list bool) : DataFrame :=
  on_rows (fun A => @select A mask) df.

(** [df.take(idx)] *)
Definition take (df : DataFrame) (idx : list nat) : DataFrame :=
  on_rows (fun A => @take_list A idx) df.

(** [df[df["log2(FC)"] > 1]] *)
Definition up_genes (df : DataFrame) : result DataFrame :=
  let? fc := getitem df "log2(FC)" in
  let? mask := gt_1_mask fc in
  Ok (loc df mask).

(** [df[df["log2(FC)"] <= 1]] *)
Definition down_genes (df : DataFrame) : result DataFrame :=
  let? fc := getitem df "log2(FC)" in
  let? mask := le_1_mask fc in
  Ok (loc df mask).

(** [df[df["IsHub"].str.lower() == "yes"]] *)
Definition hub_genes (df : DataFrame) : result DataFrame :=
  let? hub := getitem df "IsHub" in
  let? mask := str_lower_eq_yes hub in
  Ok (loc df mask).

(** *** nlargest / nsmallest *)

(** pandas orders the rows by the column, the first occurrence first among
    equal values ([keep="first"]), missing values last, and keeps the
    first [n].  The order is computed on positions paired with values. *)
Section SelectN.
Context {A : Type}.
Variable before : A -> A -> bool.  (* [before x y]: x, from the earlier row, stays ahead of y *)
Variable isna : A -> bool.

(** [x] comes from an earlier row than every element of [l]: it goes in
    front of the first element that it is allowed to precede. *)
Fixpoint insert (x : nat * A) (l : list (nat * A)) : list (nat * A) :=
  match l with
  | [] => [x]
  | y :: l' => if before (snd x) (snd y) then x :: l else y :: insert x l'
  end.

Definition sort (l : list (nat * A)) : list (nat * A) :=
  fold_right insert [] l.

Definition enumerate (l : list A) : list (nat * A) :=
  combine (seq 0 (length l)) l.

Definition select_n (n : nat) (l : list A) : list nat :=
  let el := enumerate l in
  firstn n (map fst (sort (filter (fun p => negb (isna (snd p))) el)
                     ++ filter (fun p => isna (snd p)) el)).
End SelectN.

Definition float_isna (f : spec_float) : bool :=
  match f with
  | S754_nan => true
  | _ => false
  end.

Definition never {A} (_ : A) : bool := false.

(** The positions [Series.nlargest(n)] keeps: [x] precedes a later [y]
    when [y <= x]. *)
Definition nlargest_idx (n : nat) (s : Series) : result (list nat) :=
  match s with
  | Int64 v => Ok (select_n (fun x y => (y <=? x)%Z) never n v)
  | Float64 v => Ok (select_n (fun x y => SFleb y x) float_isna n v)
  | Bool v => Ok (select_n (fun x y => implb y x) never n v)
  | Object _ => Raise TypeError
  end.

(** The positions [Series.nsmallest(n)] keeps. *)
Definition nsmallest_idx (n : nat) (s : Series) : result (list nat) :=
  match s with
  | Int64 v => Ok (select_n (fun x y => (x <=? y)%Z) never n v)
  | Float64 v => Ok (select_n (fun x y => SFleb x y) float_isna n v)
  | Bool v => Ok (select_n (fun x y => implb x y) never n v)
  | Object _ => Raise TypeError
  end.

(** [df.nlargest(n, c)]; a column of dtype object is refused. *)
Definition nlargest (n : nat) (c : string) (df : DataFrame) : result DataFrame :=
  let? s := getitem df c in
  let? idx := nlargest_idx n s in
  Ok (take df idx).

Definition nsmallest (n : nat) (c : string) (df : DataFrame) : result DataFrame :=
  let? s := getitem df c in
  let? idx := nsmallest_idx n s in
  Ok (take df idx).

(** [df[[c1, ..., ck]]]: the listed columns, KeyError on the absent ones. *)
Definition getitems (df : DataFrame) (cs : list string) : result DataFrame :=
  match filter (fun c => negb (has_column df c)) cs with
  | [] =>
      Ok (mkDF (nrows df)
            (flat_map (fun c => match lookup c (columns df) with
                                | Some s => [(c, s)]
                                | None => []
                                end) cs))
  | missing => Raise (KeyError missing)
  end.

(** ** Gene identifiers for the annotation lookups (app.py, line 57) *)

(** [==] on two cells of one column. *)
Definition cell_eqb (x y : cell) : bool :=
  match x, y with
  | CInt a, CInt b => (a =? b)%Z
  | CFloat a, CFloat b => SFeqb a b
  | CBool a, CBool b => Bool.eqb a b
  | CStr a, CStr b => String.eqb a b
  | _, _ => false
  end.

Definition isna (x : cell) : bool :=
  match x with
  | CFloat f => float_isna f
  | _ => false
  end.

(** [Series.dropna()], on the values. *)
Definition dropna (l : list cell) : list cell :=
  filter (fun x => negb (isna x)) l.

(** [Series.unique()]: the distinct values in order of first appearance. *)
Fixpoint unique_from (seen : list cell) (l : list cell) : list cell :=
  match l with
  | [] => []
  | x :: l' =>
      if existsb (cell_eqb x) seen then unique_from seen l'
      else x :: unique_from (x :: seen) l'
  end.

Definition unique (l : list cell) : list cell := unique_from [] l.

(** [df["Gene_Symbol"].dropna().unique().tolist()[:10]] *)
Definition gene_list (df : DataFrame) : result (list cell) :=
  let? g := getitem df "Gene_Symbol" in
  Ok (firstn 10 (unique (dropna (cells g)))).

(** ** JSON values as Python objects *)

Fixpoint dict_get (k : string) (d : list (string * json)) : option json :=
  match d with
  | [] => None
  | (k', v) :: d' => if String.eqb k k' then Some v else dict_get k d'
  end.

Fixpoint chars (s : string) : list json :=
  match s with
  | EmptyString => []
  | String c s' => JStr (String c EmptyString) :: chars s'
  end.

Definition string_of_nat (n : nat) : string :=
  DecimalString.NilZero.string_of_uint (Nat.to_uint n).

Definition string_of_Z (z : Z) : string :=
  DecimalString.NilZero.string_of_int (Z.to_int z).

(** [v[k]] for a string key [k]: only a dict can be indexed by a string. *)
Definition subscript (v : json) (k : string) : result json :=
  match v with
  | JDict d =>
      match dict_get k d with
      | Some x => Ok x
      | None => Raise (KeyError [k])
      end
  | _ => Raise TypeError
  end.

(** [v[i]] for an integer literal [i >= 0].  The keys of a decoded JSON
    object are strings, so an integer is never among them. *)
Definition item (v : json) (i : nat) : result json :=
  match v with
  | JList l =>
      match nth_error l i with
      | Some x => Ok x
      | None => Raise IndexError
      end
  | JStr s =>
      match nth_error (chars s) i with
      | Some x => Ok x
      | None => Raise IndexError
      end
  | JDict _ => Raise (KeyError [string_of_nat i])
  | _ => Raise TypeError
  end.

(** The elements that [for x in v[:n]] visits. *)
Definition slice_to (n : nat) (v : json) : result (list json) :=
  match v with
  | JList l => Ok (firstn n l)
  | JStr s => Ok (firstn n (chars s))
  | _ => Raise TypeError
  end.

(** [v.get(k, default)] *)
Definition get (v : json) (k : string) (default : json) : result json :=
  match v with
  | JDict d =>
      match dict_get k d with
      | Some x => Ok x
      | None => Ok default
      end
  | _ => Raise AttributeError
  end.

(** The truth value of [v] in [if v:]. *)
Definition truthy (v : json) : bool :=
  match v with
  | JNull => false
  | JBool b => b
  | JInt z => negb (z =? 0)%Z
  | JFloat f => negb (SFeqb f (S754_zero false))
  | JStr s => negb (String.eqb s "")
  | JList l => match l with [] => false | _ => true end
  | JDict d => match d with [] => false | _ => true end
  end.

(** ** The page and the network *)

Inductive Request :=
| GET (url : string) (params : list (string * json))
| POST (url : string) (files : list (string * string)).

(** What the script reads of a response: [status_code] and [json()],
    which raises when the body is not JSON. *)
Record Response := mkResponse {
  status_code : Z;
  json_body : result json
}.

Inductive Figure :=
| BarFig (labels : list string) (heights : list nat) (colors : list string)
         (ylabel : string)
| BarhFig (terms : list json) (widths : list spec_float).

(** The elements the script puts on the page. *)
Inductive Widget :=
| Title (s : string)
| Success (s : string)
| Subheader (s : string)
| Metric (label : string) (value : nat)
| Markdown (s : string)
| Dataframe (df : DataFrame)
| Records (header : list string) (rows : list (list json))
| Pyplot (fig : Figure)
| Info (s : string)
| Error (s : string)
| DownloadButton (label data file_name mime : string).

Definition is_error (w : Widget) : bool :=
  match w with
  | Error _ => true
  | _ => false
  end.

(** One run of the script: the page so far and the requests sent so far,
    oldest first. *)
Record Session := mkSession {
  out : list Widget;
  sent : list Request
}.

Definition start : Session := mkSession [] [].

(** What lies outside the script.  [http k r] is the outcome of the
    request [r] when it is the [k]-th of the run: a response, or the
    exception [requests] raises.  The text conversions of floats and of
    nested values, numpy's logarithm and matplotlib's drawing are taken
    as they come. *)
Record Env := mkEnv {
  read_csv : string -> result DataFrame;
  to_csv : DataFrame -> string;
  http : nat -> Request -> result Response;
  repr_float : spec_float -> string;
  repr_json : json -> string;
  str_exn : exn -> string;
  neg_log10 : list json -> result (list spec_float);
  barh : list json -> list spec_float -> result unit
}.

Definition M (A : Type) : Type := Session -> Session * result A.

Definition ret {A} (a : A) : M A := fun st => (st, Ok a).

Definition bind {A B} (m : M A) (k : A -> M B) : M B :=
  fun st =>
    match m st with
    | (st', Ok a) => k a st'
    | (st', Raise e) => (st', Raise e)
    end.

Definition lift {A} (r : result A) : M A := fun st => (st, r).

(** A [st.*] call: one more element on the page. *)
Definition emit (w : Widget) : M unit :=
  fun st => (mkSession (out st ++ [w]) (sent st), Ok tt).

(** [try: body except Exception as e: handler(e)] *)
Definition try_except {A} (body : M A) (handler : exn -> M A) : M A :=
  fun st =>
    match body st with
    | (st', Raise e) => handler e st'
    | r => r
    end.

Declare Scope M_scope.
Delimit Scope M_scope with M.
Notation "x <- m ;; k" := (bind m (fun x => k))
  (at level 61, m at next level, right associativity) : M_scope.
Notation "m ;; k" := (bind m (fun _ => k))
  (at level 61, right associativity) : M_scope.
Local Open Scope M_scope.

(** [for x in l: body(x)] *)
Fixpoint for_each {A} (body : A -> M unit) (l : list A) : M unit :=
  match l with
  | [] => ret tt
  | x :: l' => body x ;; for_each body l'
  end.

Definition nl : string := String (ascii_of_nat 10) EmptyString.

(** ["\n".join(l)] *)
Fixpoint join_lines (l : list string) : string :=
  match l with
  | [] => ""
  | [s] => s
  | s :: l' => s ++ nl ++ join_lines l'
  end.

Definition title : Widget :=
  Title "KnowDEGs: Your AI Companion for DEG & Hub Gene Exploration".

Section Report.
Variable env : Env.

(** [requests.get] / [requests.post]: the request goes out, then the
    outcome is known. *)
Definition request (r : Request) : M Response :=
  fun st => (mkSession (out st) (sent st ++ [r]), http env (List.length (sent st)) r).

(** [str(x)], as an f-string and [astype(str)] format a cell. *)
Definition py_str (x : cell) : string :=
  match x with
  | CStr s => s
  | CInt z => string_of_Z z
  | CBool b => if b then "True" else "False"
  | CFloat f => repr_float env f
  end.

Definition json_str (v : json) : string :=
  match v with
  | JStr s => s
  | _ => repr_json env v
  end.

(** *** Summary statistics (lines 27-35) *)
Definition summary_section (df : DataFrame) : M (DataFrame * DataFrame) :=
  emit (Subheader "🔍 Summary Statistics") ;;
  up <- lift (up_genes df) ;;
  down <- lift (down_genes df) ;;
  hub <- lift (hub_genes df) ;;
  emit (Metric "Upregulated Genes" (nrows up)) ;;
  emit (Metric "Downregulated Genes" (nrows down)) ;;
  emit (Metric "Hub Genes" (nrows hub)) ;;
  ret (up, down).

(** *** Top genes (lines 38-46) *)
Definition shown_columns : list string := ["Gene_Symbol"; "log2(FC)"; "Padj"].

Definition top_genes_section (up down : DataFrame) : M unit :=
  emit (Subheader "⭐ Top Up & Downregulated Genes") ;;
  top_up <- lift (nlargest 5 "log2(FC)" up) ;;
  top_down <- lift (nsmallest 5 "log2(FC)" down) ;;
  emit (Markdown "**Top 5 Upregulated Genes**") ;;
  t <- lift (getitems top_up shown_columns) ;;
  emit (Dataframe t) ;;
  emit (Markdown "**Top 5 Downregulated Genes**") ;;
  t <- lift (getitems top_down shown_columns) ;;
  emit (Dataframe t).

(** *** Bar plot (lines 49-53) *)
Definition bar_plot_section (up down : DataFrame) : M unit :=
  emit (Subheader "📊 Gene Regulation Summary") ;;
  emit (Pyplot (BarFig ["Upregulated"; "Downregulated"] [nrows up; nrows down]
                       ["green"; "red"] "Gene Count")).

(** *** Gene annotations (lines 56-71) *)
Definition mygene_url (gene : cell) : string :=
  "https://mygene.info/v3/query?q=" ++ py_str gene ++ "&species=human".

Definition lookup_request (gene : cell) : Request := GET (mygene_url gene) [].

Definition annotate (gene : cell) : M unit :=
  response <- request (lookup_request gene) ;;
  if (status_code response =? 200)%Z then
    data <- lift (json_body response) ;;
    hits <- lift (subscript data "hits") ;;
    if truthy hits then
      hit <- lift (item hits 0) ;;
      name <- lift (get hit "name" (JStr "N/A")) ;;
      summary <- lift (get hit "summary" (JStr "No summary available.")) ;;
      emit (Markdown ("**" ++ py_str gene ++ "** - *" ++ json_str name ++ "*  "
                      ++ nl ++ json_str summary))
    else
      emit (Markdown ("**" ++ py_str gene ++ "** - No match found."))
  else
    emit (Markdown ("**" ++ py_str gene ++ "** - Request failed.")).

Definition annotation_section (df : DataFrame) : M unit :=
  emit (Subheader "🧬 Gene Annotations (from MyGene.info)") ;;
  genes <- lift (gene_list df) ;;
  for_each annotate genes.

(** *** Functional enrichment (lines 74-120) *)

(** [df["Gene_Symbol"].dropna().astype(str).tolist()] *)
Definition gene_symbols (df : DataFrame) : result (list string) :=
  let? g := getitem df "Gene_Symbol" in
  Ok (map py_str (dropna (cells g))).

Definition enrichr_url : string := "https://maayanlab.cloud/Enrichr".

Definition add_list_request (symbols : list string) : Request :=
  POST (enrichr_url ++ "/addList")
       [("list", join_lines symbols); ("description", "KnowDEGs")].

Definition enrich_request (user_list_id : json) : Request :=
  GET (enrichr_url ++ "/enrich")
      [("userListId", user_list_id); ("backgroundType", JStr "KEGG_2021_Human")].

(** [{"Term": term[1], "P-value": term[2], "Genes": term[5]}] *)
Definition top_term (term : json) : result (list json) :=
  let? t := item term 1 in
  let? p := item term 2 in
  let? g := item term 5 in
  Ok [t; p; g].

(** The body of the [try]. *)
Definition enrichment_body (symbols : list string) : M unit :=
  add_resp <- request (add_list_request symbols) ;;
  added <- lift (json_body add_resp) ;;
  user_list_id <- lift (subscript added "userListId") ;;
  enr_resp <- request (enrich_request user_list_id) ;;
  enriched <- lift (json_body enr_resp) ;;
  enriched_terms <- lift (subscript enriched "KEGG_2021_Human") ;;
  if truthy enriched_terms then
    terms <- lift (slice_to 5 enriched_terms) ;;
    top_terms <- lift (mapM top_term terms) ;;
    emit (Markdown "### Top Enriched KEGG Pathways") ;;
    emit (Records ["Term"; "P-value"; "Genes"] top_terms) ;;
    widths <- lift (neg_log10 env (map (fun r => nth 1 r JNull) top_terms)) ;;
    lift (barh env (map (fun r => nth 0 r JNull) top_terms) widths) ;;
    emit (Pyplot (BarhFig (map (fun r => nth 0 r JNull) top_terms) widths))
  else
    emit (Info "No enrichment results found.").

Definition enrichment_error (e : exn) : Widget :=
  Error ("⚠️ Error fetching enrichment results: " ++ str_exn env e).

Definition enrichment_header : Widget :=
  Subheader "📈 Functional Enrichment (GO/KEGG via Enrichr + Plot)".

Definition enrichment_section (df : DataFrame) : M unit :=
  emit enrichment_header ;;
  symbols <- lift (gene_symbols df) ;;
  try_except (enrichment_body symbols) (fun e => emit (enrichment_error e)).

(** *** Export (lines 123-124) *)
Definition download_button (df : DataFrame) : Widget :=
  DownloadButton "Download DEG Table" (to_csv env df) "degs_summary.csv" "text/csv".

Definition export_section (df : DataFrame) : M unit :=
  emit (Subheader "📄 Export KnowDEGs") ;;
  emit (download_button df).

(** *** The script *)

(** Lines 15-71: everything that runs before the enrichment. *)
Definition report_before_enrichment (file : string) : M DataFrame :=
  df <- lift (read_csv env file) ;;
  df <- lift (load_table df) ;;
  emit (Success "✅ File loaded successfully!") ;;
  tables <- summary_section df ;;
  top_genes_section (fst tables) (snd tables) ;;
  bar_plot_section (fst tables) (snd tables) ;;
  annotation_section df ;;
  ret df.

(** The whole page; [uploaded_file] is [None] until a file is chosen. *)
Definition app (uploaded_file : option string) : M unit :=
  emit title ;;
  match uploaded_file with
  | Some file =>
      df <- report_before_enrichment file ;;
      enrichment_section df ;;
      export_section df
  | None => ret tt
  end.
End Report.

(** ** Vocabulary of the properties *)

(** The IsHub column that the loader adds. *)
Definition unknown (n : nat) : Series := Object (repeat (Some "Unknown") n).

(** [x > 1] as a truth value, false where the comparison raises. *)
Definition gtb_1 (x : cell) : bool :=
  match gt_1 x with
  | Ok b => b
  | Raise _ => false
  end.

(** In an ordering of rows by [before], the row [p] may stand ahead of
    the row [q]: its value is allowed to precede, and on a tie it comes
    from the earlier row. *)
Definition ahead {A} (before : A -> A -> bool) (p q : nat * A) : Prop :=
  before (snd p) (snd q) = true /\
  (before (snd q) (snd p) = true -> fst p < fst q).

(** The elements rendered before the first table of the page. *)
Definition before_tables (w : Widget) : Prop :=
  match w with
  | Title _ | Success _ | Subheader _ | Metric _ _ | Markdown _ => True
  | _ => False
  end.

(** The computation [m] only adds to the page, and only elements that
    are not error messages. *)
Definition quiet {A} (m : M A) : Prop :=
  forall st st' r,
    m st = (st', r) ->
    exists shown, out st' = out st ++ shown /\ Forall (fun w => is_error w = false) shown.

(** [x <= 1] as a truth value, false where the comparison raises. *)
Definition leb_1 (x : cell) : bool :=
  match le_1 x with
  | Ok b => b
  | Raise _ => false
  end.

(** The number of values of [l] that satisfy [p]. *)
Definition count {A} (p : A -> bool) (l : list A) : nat := List.length (filter p l).

(** The spellings of "yes" in upper and lower case. *)
Definition yes_spellings : list string :=
  ["yes"; "yeS"; "yEs"; "yES"; "Yes"; "YeS"; "YEs"; "YES"].

(** A JSON array with fewer than six entries. *)
Definition short_term (term : json) : Prop :=
  match term with
  | JList l => List.length l < 6
  | _ => False
  end.

Definition is_list (v : json) : Prop :=
  match v with
  | JList _ => True
  | _ => False
  end.

(** A request to one of the two Enrichr endpoints. *)
Definition to_enrichr (q : Request) : Prop :=
  match q with
  | POST url _ => url = String.append enrichr_url "/addList"
  | GET url _ => url = String.append enrichr_url "/enrich"
  end.

(** The computation [m] sends no request. *)
Definition silent {A} (m : M A) : Prop :=
  forall st st' r, m st = (st', r) -> sent st' = sent st.

(** The computation [m] only adds to the page. *)
Definition appends {A} (m : M A) : Prop :=
  forall st st' r, m st = (st', r) -> exists shown, out st' = out st ++ shown.

(** Both Enrichr calls answer, the first as the [k]-th request of the
    run, and the enrichment holds [terms] under the KEGG key. *)
Definition enrichr_answers (env : Env) (symbols : list string) (k : nat)
           (user_list_id terms : json) : Prop :=
  exists add_resp added enr_resp enriched,
    http env k (add_list_request symbols) = Ok add_resp /\
    json_body add_resp = Ok added /\
    subscript added "userListId" = Ok user_list_id /\
    http env (S k) (enrich_request user_list_id) = Ok enr_resp /\
    json_body enr_resp = Ok enriched /\
    subscript enriched "KEGG_2021_Human" = Ok terms.

(** The row of the enrichment table for a term: its entries 1, 2 and 5. *)
Definition term_row (term : json) : list json :=
  match term with
  | JList l => [nth 1 l JNull; nth 2 l JNull; nth 5 l JNull]
  | _ => []
  end.

Definition long_term (term : json) : Prop :=
  match term with
  | JList l => 6 <= List.length l
  | _ => False
  end.

(** The requests that [m] sends are lookups for a prefix of at most ten
    identifiers. *)
Definition looks_up (env : Env) {A} (m : M A) : Prop :=
  forall st st' r,
    m st = (st', r) ->
    exists genes k,
      List.length genes <= 10 /\
      sent st' = sent st ++ map (lookup_request env) (firstn k genes).

(** The list identifier in the answer to the addList request sent as the
    [k]-th request of the run, if the answer has one. *)
Definition returned_list_id (env : Env) (symbols : list string) (k : nat) : option json :=
  match http env k (add_list_request symbols) with
  | Ok add_resp =>
      match json_body add_resp with
      | Ok added =>
          match subscript added "userListId" with
          | Ok user_list_id => Some user_list_id
          | Raise _ => None
          end
      | Raise _ => None
      end
  | Raise _ => None
  end.

(** ** Example tables and services *)

(** The binary64 values of 2.3, -1.5, 0.001 and 0.02. *)
Definition f2_3 : spec_float := S754_finite false 5179139571476070 (-51).
Definition fm1_5 : spec_float := S754_finite true 6755399441055744 (-52).
Definition f0_001 : spec_float := S754_finite false 4611686018427388 (-62).
Definition f0_02 : spec_float := S754_finite false 5764607523034235 (-58).

(** The two rows of the specification's example. *)
Definition tp53_brca1 : DataFrame :=
  mkDF 2 [("Gene_Symbol", Object [Some "TP53"; Some "BRCA1"]);
          ("log2(FC)", Float64 [f2_3; fm1_5]);
          ("Padj", Float64 [f0_001; f0_02])].

Definition tp53_brca1_loaded : DataFrame :=
  mkDF 2 [("Gene_Symbol", Object [Some "TP53"; Some "BRCA1"]);
          ("log2(FC)", Float64 [f2_3; fm1_5]);
          ("Padj", Float64 [f0_001; f0_02]);
          ("Regulation", Object [Some "Up"; Some "Down"]);
          ("IsHub", Object [Some "Unknown"; Some "Unknown"])].

(** One gene whose fold change is missing. *)
Definition missing_fc : DataFrame :=
  mkDF 1 [("Gene_Symbol", Object [Some "GAPDH"]);
          ("log2(FC)", Float64 [S754_nan]);
          ("Padj", Float64 [f0_02])].

Definition missing_fc_loaded : DataFrame :=
  mkDF 1 [("Gene_Symbol", Object [Some "GAPDH"]);
          ("log2(FC)", Float64 [S754_nan]);
          ("Padj", Float64 [f0_02]);
          ("Regulation", Object [Some "Down"]);
          ("IsHub", Object [Some "Unknown"])].

(** Nine genes, seven of them upregulated, with ties at 4.0 and at 2.3. *)
Definition f2_0 : spec_float := S754_finite false 4503599627370496 (-51).
Definition f3_5 : spec_float := S754_finite false 7881299347898368 (-51).
Definition f4_0 : spec_float := S754_finite false 4503599627370496 (-50).
Definition f0_5 : spec_float := S754_finite false 4503599627370496 (-53).

Definition nine_genes : DataFrame :=
  mkDF 9 [("Gene_Symbol",
           Object [Some "A"; Some "B"; Some "C"; Some "D"; Some "E";
                   Some "F"; Some "G"; Some "H"; Some "I"]);
          ("log2(FC)",
           Float64 [f2_3; f4_0; f0_5; f2_3; f3_5; f2_0; f4_0; fm1_5; f2_3]);
          ("Padj", Float64 (repeat f0_02 9))].

(** Five hundred genes with distinct names [GENE0], [GENE1], ... *)
Definition five_hundred_genes : DataFrame :=
  mkDF 500 [("Gene_Symbol",
             Object (map (fun i => Some ("GENE" ++ string_of_nat i)%string) (seq 0 500)));
            ("log2(FC)", Int64 (repeat 2%Z 500));
            ("Padj", Float64 (repeat f0_02 500))].

(** A table without the Padj column. *)
Definition no_padj : DataFrame :=
  mkDF 2 [("Gene_Symbol", Object [Some "TP53"; Some "BRCA1"]);
          ("log2(FC)", Float64 [f2_3; fm1_5])].

Definition no_padj_loaded : DataFrame :=
  mkDF 2 [("Gene_Symbol", Object [Some "TP53"; Some "BRCA1"]);
          ("log2(FC)", Float64 [f2_3; fm1_5]);
          ("Regulation", Object [Some "Up"; Some "Down"]);
          ("IsHub", Object [Some "Unknown"; Some "Unknown"])].

(** Services for the examples.  The gene lookup answers 200 with no hit;
    the two Enrichr calls answer as given. *)
Definition no_hits : Response := mkResponse 200 (Ok (JDict [("hits", JList [])])).

Definition service (add enrich : result Response) (k : nat) (r : Request)
  : result Response :=
  match r with
  | POST _ _ => add
  | GET _ [] => Ok no_hits
  | GET _ _ => enrich
  end.

Definition example_env (table : result DataFrame) (add enrich : result Response) : Env :=
  mkEnv (fun _ => table) (fun _ => "csv") (service add enrich)
        (fun _ => "float") (fun _ => "json") (fun _ => "exception")
        (fun ps => Ok (map (fun _ => one) ps)) (fun _ _ => Ok tt).

Definition list_added : Response :=
  mkResponse 200 (Ok (JDict [("shortId", JStr "abc"); ("userListId", JInt 42)])).

Definition no_terms : Response :=
  mkResponse 200 (Ok (JDict [("KEGG_2021_Human", JList [])])).

Definition unreachable : result Response := Raise (LibraryError "ConnectionError").

(** Genes with a hub flag in several spellings, one flag missing. *)
Definition hub_flags : DataFrame :=
  mkDF 4 [("Gene_Symbol", Object [Some "TP53"; Some "BRCA1"; Some "EGFR"; Some "MYC"]);
          ("log2(FC)", Float64 [f2_3; fm1_5; S754_nan; f0_5]);
          ("Padj", Float64 [f0_001; f0_02; f0_02; f0_02]);
          ("IsHub", Object [Some "Yes"; Some "no"; None; Some "YES"])].

(** A service that is up but refuses every request. *)
Definition refusing : nat -> Request -> result Response :=
  fun _ _ => Ok (mkResponse 503 (Raise (LibraryError "JSONDecodeError"))).

Definition refusing_env (table : result DataFrame) : Env :=
  mkEnv (fun _ => table) (fun _ => "csv") refusing
        (fun _ => "float") (fun _ => "json") (fun _ => "exception")
        (fun ps => Ok (map (fun _ => one) ps)) (fun _ _ => Ok tt).

(** Two KEGG terms as Enrichr returns them: rank, name, p-value, z-score,
    combined score, genes. *)
Definition term_p53 : json :=
  JList [JInt 1; JStr "p53 signaling pathway"; JFloat f0_001; JFloat f2_3;
         JFloat f4_0; JList [JStr "TP53"]].



Definition truncated_terms : Response :=
  mkResponse 200 (Ok (JDict [("KEGG_2021_Human",
                              JList [term_p53; JList [JInt 2; JStr "Homologous"]])])).

(** * Properties *)

(** ** Columns *)

Lemma lookup_assign_eq c s cols : lookup c (assign c s cols) = Some s.
Proof.
  induction cols as [|[c' s'] cols IH]; simpl.
  - now rewrite String.eqb_refl.
  - destruct (String.eqb c c') eqn:E; simpl; now rewrite E.
Qed.

Lemma lookup_assign_neq c c' s cols :
  c' <> c -> lookup c' (assign c s cols) = lookup c' cols.
Proof.
  intros Hne. induction cols as [|[c'' s''] cols IH]; simpl.
  - destruct (String.eqb c' c) eqn:E; [apply String.eqb_eq in E; contradiction | reflexivity].
  - destruct (String.eqb c c'') eqn:E; simpl.
    + apply String.eqb_eq in E. subst c''.
      destruct (String.eqb c' c) eqn:E'; [apply String.eqb_eq in E'; contradiction | reflexivity].
    + destruct (String.eqb c' c''); [reflexivity | exact IH].
Qed.

Lemma names_assign c s cols :
  map fst (assign c s cols) =
  map fst cols ++ match lookup c cols with Some _ => [] | None => [c] end.
Proof.
  induction cols as [|[c' s'] cols IH]; simpl; [reflexivity|].
  destruct (String.eqb c c') eqn:E; simpl.
  - now rewrite app_nil_r.
  - now rewrite IH.
Qed.

(** Assigning to [c] leaves every column with another label where it is. *)
Lemma nth_error_assign_neq c s cols k c' s' :
  nth_error cols k = Some (c', s') -> c' <> c ->
  nth_error (assign c s cols) k = Some (c', s').
Proof.
  revert k. induction cols as [|[c'' s''] cols IH]; intros [|k] H Hne; simpl in *;
    try discriminate.
  - injection H as -> ->.
    destruct (String.eqb c c') eqn:E; [apply String.eqb_eq in E; congruence | reflexivity].
  - destruct (String.eqb c c''); simpl; auto.
Qed.

Lemma mapM_Forall2 {A B} (f : A -> result B) l ys :
  mapM f l = Ok ys -> Forall2 (fun x y => f x = Ok y) l ys.
Proof.
  revert ys. induction l as [|x l IH]; simpl; intros ys H.
  - injection H as <-. constructor.
  - destruct (f x) as [y|] eqn:Hy; simpl in H; [|discriminate].
    destruct (mapM f l) as [ys'|] eqn:Hys; simpl in H; [|discriminate].
    injection H as <-. constructor; auto.
Qed.

Lemma Forall2_nth_error_l {A B} (R : A -> B -> Prop) l l' i x :
  Forall2 R l l' -> nth_error l i = Some x ->
  exists y, nth_error l' i = Some y /\ R x y.
Proof.
  intros H. revert i. induction H as [|a b l l' Hab H IH]; intros [|i] Hi; simpl in *;
    try discriminate.
  - injection Hi as <-. eauto.
  - auto.
Qed.

(** A map that never raises. *)
Lemma mapM_total {A B} (f : A -> result B) (g : A -> B) l :
  Forall (fun x => f x = Ok (g x)) l -> mapM f l = Ok (map g l).
Proof.
  induction 1 as [|x l Hx _ IH]; simpl; [reflexivity|].
  now rewrite Hx, IH.
Qed.

(** ** The loader *)


(** What a successful load has done. *)
Lemma load_table_inv df0 df :
  load_table df0 = Ok df ->
  exists fc ys,
    lookup "log2(FC)" (columns df0) = Some fc /\
    mapM regulation (cells fc) = Ok ys /\
    nrows df = nrows df0 /\
    columns df =
      let cols := assign "Regulation" (Object (map Some ys)) (columns df0) in
      if has_column df0 "IsHub" then cols
      else assign "IsHub" (unknown (nrows df0)) cols.
Proof.
  unfold load_table, getitem, apply. intros H.
  destruct (lookup "log2(FC)" (columns df0)) as [fc|] eqn:Hfc; simpl in H; [|discriminate].
  destruct (mapM regulation (cells fc)) as [ys|] eqn:Hys; simpl in H; [|discriminate].
  exists fc, ys. repeat split; auto.
  - injection H as <-. now destruct (negb _).
  - injection H as <-. unfold has_column at 1. simpl.
    rewrite lookup_assign_neq by discriminate.
    unfold has_column. now destruct (lookup "IsHub" (columns df0)).
Qed.

Lemma load_table_fc df0 df fc :
  load_table df0 = Ok df ->
  lookup "log2(FC)" (columns df0) = Some fc ->
  lookup "log2(FC)" (columns df) = Some fc.
Proof.
  intros H Hfc. destruct (load_table_inv _ _ H) as (fc' & ys & Hfc' & _ & _ & Hcols).
  rewrite Hcols. simpl.
  destruct (has_column df0 "IsHub");
    repeat (rewrite lookup_assign_neq by discriminate); exact Hfc.
Qed.

Lemma load_table_regulation df0 df :
  load_table df0 = Ok df ->
  exists fc ys,
    lookup "log2(FC)" (columns df0) = Some fc /\
    mapM regulation (cells fc) = Ok ys /\
    lookup "Regulation" (columns df) = Some (Object (map Some ys)).
Proof.
  intros H. destruct (load_table_inv _ _ H) as (fc & ys & Hfc & Hys & _ & Hcols).
  exists fc, ys. repeat split; auto.
  rewrite Hcols. simpl.
  destruct (has_column df0 "IsHub");
    repeat (rewrite lookup_assign_neq by discriminate); apply lookup_assign_eq.
Qed.

(** The loader accepts every table with a numeric fold-change column. *)
Lemma gt_1_numeric fc :
  is_numeric fc = true ->
  Forall (fun x => regulation x = Ok (match gt_1 x with
                                      | Ok true => "Up"
                                      | _ => "Down"
                                      end)) (cells fc).
Proof.
  destruct fc as [v|v|v|v]; simpl; intros H; try discriminate;
    apply Forall_forall; intros x Hx; apply in_map_iff in Hx as (a & <- & _);
    unfold regulation; simpl; match goal with |- context [if ?b then _ else _] => destruct b end;
    reflexivity.
Qed.

Lemma load_table_total df0 fc :
  lookup "log2(FC)" (columns df0) = Some fc -> is_numeric fc = true ->
  exists df, load_table df0 = Ok df.
Proof.
  intros Hfc Hnum. unfold load_table, getitem, apply. rewrite Hfc. simpl.
  rewrite (mapM_total _ _ _ (gt_1_numeric fc Hnum)). simpl. eauto.
Qed.

Lemma map_obj_cell_Some ys : map obj_cell (map Some ys) = map CStr ys.
Proof. now rewrite map_map. Qed.

(** C1.  In a loaded table the Regulation of a row is "Up" exactly when
    its log2(FC) is greater than 1 and "Down" otherwise: every row falls
    in one of the two cases.  The rows of the specification's example,
    log2(FC) 2.3 and -1.5, are labelled "Up" and "Down". *)
Theorem C1_regulation_up_iff_gt_1 (df0 df : DataFrame) :
  load_table df0 = Ok df ->
  let fc := column_cells df "log2(FC)" in
  let reg := column_cells df "Regulation" in
  List.length reg = List.length fc /\
  (forall i x, nth_error fc i = Some x ->
     (gt_1 x = Ok true /\ nth_error reg i = Some (CStr "Up")) \/
     (gt_1 x = Ok false /\ nth_error reg i = Some (CStr "Down"))) /\
  regulation (CFloat f2_3) = Ok "Up" /\
  regulation (CFloat fm1_5) = Ok "Down".
Proof.
  intros H fc reg.
  destruct (load_table_regulation _ _ H) as (s & ys & Hfc & Hys & Hreg).
  pose proof (load_table_fc _ _ _ H Hfc) as Hfc'.
  assert (Efc : fc = cells s) by (unfold fc, column_cells; now rewrite Hfc').
  assert (Ereg : reg = map CStr ys).
  { unfold reg, column_cells. rewrite Hreg. apply map_obj_cell_Some. }
  apply mapM_Forall2 in Hys.
  repeat split; try reflexivity.
  - rewrite Efc, Ereg, length_map. symmetry. eapply Forall2_length; eauto.
  - intros i x Hx. rewrite Efc in Hx.
    destruct (Forall2_nth_error_l _ _ _ _ _ Hys Hx) as (y & Hy & Hxy).
    rewrite Ereg, nth_error_map, Hy. simpl.
    unfold regulation in Hxy. destruct (gt_1 x) as [[|]|]; simpl in Hxy;
      try discriminate; injection Hxy as <-; auto.
Qed.

Lemma C1_regulation_up_iff_gt_1_witness :
  load_table tp53_brca1 = Ok tp53_brca1_loaded /\
  (forall i x, nth_error (column_cells tp53_brca1_loaded "log2(FC)") i = Some x ->
     (gt_1 x = Ok true /\
      nth_error (column_cells tp53_brca1_loaded "Regulation") i = Some (CStr "Up")) \/
     (gt_1 x = Ok false /\
      nth_error (column_cells tp53_brca1_loaded "Regulation") i = Some (CStr "Down"))).
Proof.
  split; [reflexivity|].
  apply (C1_regulation_up_iff_gt_1 tp53_brca1 tp53_brca1_loaded). reflexivity.
Defined.

Lemma select_all_false {A} mask (l : list A) :
  Forall (eq false) mask -> select mask l = [].
Proof.
  intros H. revert l. induction H as [|b mask <- _ IH]; intros [|x l]; simpl; auto.
Qed.

(** C9.  When the header has no IsHub column, the loaded table has the
    string "Unknown" as IsHub in every row, and no row counts as a hub
    gene. *)
Theorem C9_missing_ishub_is_unknown (df0 df : DataFrame) :
  has_column df0 "IsHub" = false ->
  load_table df0 = Ok df ->
  column_cells df "IsHub" = repeat (CStr "Unknown") (nrows df) /\
  exists hub, hub_genes df = Ok hub /\ nrows hub = 0.
Proof.
  intros Habs H.
  destruct (load_table_inv _ _ H) as (fc & ys & _ & _ & Hn & Hcols).
  rewrite Habs in Hcols. simpl in Hcols.
  assert (Hhub : lookup "IsHub" (columns df) = Some (unknown (nrows df))).
  { rewrite Hcols, Hn. apply lookup_assign_eq. }
  split.
  - unfold column_cells. rewrite Hhub. simpl. generalize (nrows df).
    induction n; simpl; congruence.
  - unfold hub_genes, getitem. rewrite Hhub. simpl. eexists. split; [reflexivity|].
    simpl. rewrite select_all_false; [reflexivity|].
    apply Forall_forall. intros b Hb. apply in_map_iff in Hb as (o & <- & Ho).
    apply repeat_spec in Ho. now subst o.
Qed.

Lemma C9_missing_ishub_is_unknown_witness :
  has_column tp53_brca1 "IsHub" = false /\
  load_table tp53_brca1 = Ok tp53_brca1_loaded /\
  column_cells tp53_brca1_loaded "IsHub" = [CStr "Unknown"; CStr "Unknown"] /\
  exists hub, hub_genes tp53_brca1_loaded = Ok hub /\ nrows hub = 0.
Proof.
  split; [reflexivity|]. split; [reflexivity|].
  apply (C9_missing_ishub_is_unknown tp53_brca1 tp53_brca1_loaded); reflexivity.
Defined.

Lemma lookup_None_nth_error c cols k c' s :
  lookup c cols = None -> nth_error cols k = Some (c', s) -> c' <> c.
Proof.
  revert k. induction cols as [|[c'' s''] cols IH]; intros [|k] Hl Hk; simpl in *;
    try discriminate.
  - injection Hk as -> ->. intros ->. now rewrite String.eqb_refl in Hl.
  - destruct (String.eqb c c''); [discriminate | eauto].
Qed.

(** C10.  The loader keeps the number of rows, keeps every column whose
    label is not Regulation at its place with its values, writes the
    derived Regulation column whether or not the input had one, and
    appends IsHub, filled with "Unknown", only when the input had none.
    No other column is added. *)
Theorem C10_loader_frame (df0 df : DataFrame) :
  load_table df0 = Ok df ->
  nrows df = nrows df0 /\
  names df = names df0
             ++ (if has_column df0 "Regulation" then [] else ["Regulation"])
             ++ (if has_column df0 "IsHub" then [] else ["IsHub"]) /\
  (forall k c s, nth_error (columns df0) k = Some (c, s) -> c <> "Regulation" ->
                 nth_error (columns df) k = Some (c, s)) /\
  (exists fc reg, getitem df0 "log2(FC)" = Ok fc /\ apply regulation fc = Ok reg /\
                  getitem df "Regulation" = Ok reg) /\
  (has_column df0 "IsHub" = false ->
   getitem df "IsHub" = Ok (Object (repeat (Some "Unknown") (nrows df0)))).
Proof.
  intros H.
  destruct (load_table_inv _ _ H) as (fc & ys & Hfc & Hys & Hn & Hcols).
  simpl in Hcols. split; [exact Hn|]. split; [|split; [|split]].
  - unfold names, has_column. rewrite Hcols. unfold has_column.
    destruct (lookup "IsHub" (columns df0)) eqn:Hhub.
    + rewrite names_assign, app_nil_r.
      now destruct (lookup "Regulation" (columns df0)).
    + rewrite !names_assign, lookup_assign_neq, Hhub by discriminate.
      rewrite <- app_assoc. now destruct (lookup "Regulation" (columns df0)).
  - intros k c s Hk Hne. rewrite Hcols. unfold has_column.
    destruct (lookup "IsHub" (columns df0)) eqn:Hhub.
    + now apply nth_error_assign_neq.
    + apply nth_error_assign_neq; [now apply nth_error_assign_neq|].
      eapply lookup_None_nth_error; eauto.
  - exists fc, (Object (map Some ys)). unfold getitem, apply.
    rewrite Hfc, Hys. simpl. repeat split.
    rewrite Hcols. destruct (has_column df0 "IsHub");
      repeat (rewrite lookup_assign_neq by discriminate); now rewrite lookup_assign_eq.
  - intros Habs. unfold getitem. rewrite Hcols, Habs. now rewrite lookup_assign_eq.
Qed.

Lemma C10_loader_frame_witness :
  load_table tp53_brca1 = Ok tp53_brca1_loaded /\
  nrows tp53_brca1_loaded = nrows tp53_brca1 /\
  names tp53_brca1_loaded = names tp53_brca1 ++ ["Regulation"] ++ ["IsHub"].
Proof.
  split; [reflexivity|].
  pose proof (C10_loader_frame tp53_brca1 tp53_brca1_loaded eq_refl) as (Hn & Hnames & _).
  split; [exact Hn | exact Hnames].
Defined.

(** ** Counts *)

Lemma SFcompare_antisym a b :
  SFcompare b a = option_map CompOpp (SFcompare a b).
Proof.
  destruct a as [s|s| |s m e], b as [s'|s'| |s' m' e']; simpl; try reflexivity;
    try (destruct s; reflexivity); try (destruct s'; reflexivity);
    try (destruct s, s'; reflexivity).
  destruct s, s'; try reflexivity; f_equal;
    rewrite (Z.compare_antisym e e'); destruct (e ?= e')%Z; simpl; try reflexivity;
    pose proof (Pos.compare_cont_antisym m m' Eq) as E; simpl in E;
    [f_equal|]; symmetry; exact E.
Qed.

Lemma SFltb_negb_SFleb a b :
  float_isna a = false -> float_isna b = false -> SFltb a b = negb (SFleb b a).
Proof.
  intros Ha Hb. unfold SFltb, SFleb. rewrite (SFcompare_antisym a b).
  destruct (SFcompare a b) as [[| |]|] eqn:E; try reflexivity.
  destruct a, b; discriminate.
Qed.

Lemma le_1_negb_gt_1 x b :
  isna x = false -> gt_1 x = Ok b -> le_1 x = Ok (negb b).
Proof.
  destruct x as [z|f|c|s]; simpl; intros Hna H; try discriminate; injection H as <-; f_equal.
  - apply Z.leb_antisym.
  - rewrite SFltb_negb_SFleb by auto. now rewrite negb_involutive.
  - apply Z.leb_antisym.
Qed.

Lemma select_complement_length {A} mask (l : list A) :
  List.length mask = List.length l ->
  List.length (select mask l) + List.length (select (map negb mask) l) = List.length l.
Proof.
  revert l. induction mask as [|b mask IH]; intros [|x l] H; simpl in *; try discriminate;
    auto.
  injection H as H. specialize (IH l H). destruct b; simpl; lia.
Qed.

(** Without missing fold changes the two counts add up to the number of
    rows. *)
Lemma counts_partition_without_missing df fc :
  getitem df "log2(FC)" = Ok fc -> is_numeric fc = true -> size fc = nrows df ->
  Forall (fun x => isna x = false) (cells fc) ->
  exists up down,
    up_genes df = Ok up /\ down_genes df = Ok down /\
    nrows up + nrows down = nrows df.
Proof.
  intros Hfc Hnum Hsize Hna. unfold up_genes, down_genes, gt_1_mask, le_1_mask.
  rewrite Hfc. simpl.
  assert (Hgt : mapM gt_1 (cells fc) =
                Ok (map (fun x => match gt_1 x with Ok b => b | _ => false end) (cells fc))).
  { apply mapM_total. apply Forall_forall. intros x Hx.
    destruct fc; try discriminate; simpl in Hx; apply in_map_iff in Hx as (a & <- & _);
      reflexivity. }
  assert (Hle : mapM le_1 (cells fc) =
                Ok (map negb (map (fun x => match gt_1 x with Ok b => b | _ => false end)
                                  (cells fc)))).
  { rewrite map_map. apply mapM_total. rewrite Forall_forall in *. intros x Hx.
    specialize (Hna x Hx). apply le_1_negb_gt_1; auto.
    destruct fc; try discriminate; simpl in Hx; apply in_map_iff in Hx as (a & <- & _);
      reflexivity. }
  rewrite Hgt, Hle. simpl. do 2 eexists. repeat split.
  unfold loc, on_rows. cbn [nrows].
  rewrite select_complement_length; rewrite length_seq; [reflexivity|].
  rewrite length_map. exact Hsize.
Qed.

(** C2, evaluated on a table with one row whose log2(FC) is missing: the
    row is labelled "Down" by the loader, yet it is counted neither as
    upregulated nor as downregulated, so the two counts add up to 0 and
    not to the row count 1. *)
Theorem C2_counts_skip_missing_fold_change :
  load_table missing_fc = Ok missing_fc_loaded /\
  column_cells missing_fc_loaded "Regulation" = [CStr "Down"] /\
  nrows missing_fc_loaded = 1 /\
  exists up down,
    up_genes missing_fc_loaded = Ok up /\ down_genes missing_fc_loaded = Ok down /\
    nrows up = 0 /\ nrows down = 0.
Proof.
  repeat split. do 2 eexists. repeat split.
Qed.

(** ** Loading an exported table again *)

Lemma load_table_has_ishub df0 df :
  load_table df0 = Ok df -> has_column df "IsHub" = true.
Proof.
  intros H. destruct (load_table_inv _ _ H) as (fc & ys & _ & _ & _ & Hcols).
  unfold has_column at 1. rewrite Hcols. simpl.
  destruct (has_column df0 "IsHub") eqn:E.
  - rewrite lookup_assign_neq by discriminate. exact E.
  - now rewrite lookup_assign_eq.
Qed.

(** The loader recomputes Regulation from log2(FC) and keeps an IsHub
    column that is there.  So a table [df1] that carries the row count and
    the log2(FC) and IsHub columns of a loaded table [df], as a parsed
    export of [df] is meant to, loads to a table with the Regulation and
    IsHub values of [df].  Whether pandas' [to_csv] and [read_csv] hand
    the columns back unchanged is outside this development. *)
Lemma reload_keeps_regulation_and_ishub df0 df df1 :
  load_table df0 = Ok df ->
  nrows df1 = nrows df ->
  lookup "log2(FC)" (columns df1) = lookup "log2(FC)" (columns df) ->
  lookup "IsHub" (columns df1) = lookup "IsHub" (columns df) ->
  exists df2,
    load_table df1 = Ok df2 /\
    nrows df2 = nrows df /\
    column_cells df2 "Regulation" = column_cells df "Regulation" /\
    column_cells df2 "IsHub" = column_cells df "IsHub".
Proof.
  intros Hload Hn Hfc1 Hhub1.
  destruct (load_table_regulation _ _ Hload) as (fc & ys & Hfc0 & Hys & Hreg).
  pose proof (load_table_fc _ _ _ Hload Hfc0) as Hfc.
  pose proof (load_table_has_ishub _ _ Hload) as Hhub.
  rewrite Hfc in Hfc1.
  assert (Hhas : has_column (setitem df1 "Regulation" (Object (map Some ys))) "IsHub" = true).
  { unfold has_column in *. simpl. rewrite lookup_assign_neq by discriminate.
    now rewrite Hhub1. }
  exists (setitem df1 "Regulation" (Object (map Some ys))).
  split; [|split; [exact Hn|split]].
  - unfold load_table, getitem, apply. rewrite Hfc1. simpl. rewrite Hys. simpl.
    now rewrite Hhas.
  - unfold column_cells. simpl. now rewrite lookup_assign_eq, Hreg.
  - unfold column_cells. simpl. rewrite lookup_assign_neq by discriminate.
    now rewrite Hhub1.
Qed.

(** ** Ordering rows by a column *)

Lemma StronglySorted_nth_error {A} (R : A -> A -> Prop) l i j a b :
  StronglySorted R l -> i < j ->
  nth_error l i = Some a -> nth_error l j = Some b -> R a b.
Proof.
  intros H. revert i j. induction H as [|x l Hl IH Hx]; intros i j Hij Hi Hj.
  - now destruct i.
  - destruct j as [|j]; [lia|]. destruct i as [|i]; simpl in *.
    + injection Hi as <-. rewrite Forall_forall in Hx. apply Hx.
      eapply nth_error_In; eauto.
    + apply (IH i j); auto. lia.
Qed.

Lemma NoDup_firstn {A} n (l : list A) : NoDup l -> NoDup (firstn n l).
Proof.
  intros H. rewrite <- (firstn_skipn n l) in H. now apply NoDup_app_remove_r in H.
Qed.

Lemma In_firstn {A} n (l : list A) x : In x (firstn n l) -> In x l.
Proof. intros H. rewrite <- (firstn_skipn n l). apply in_or_app. now left. Qed.

Lemma nth_error_firstn_Some {A} n (l : list A) i x :
  nth_error (firstn n l) i = Some x -> i < n /\ nth_error l i = Some x.
Proof.
  revert l i. induction n as [|n IH]; intros l i H; simpl in H.
  - now destruct i.
  - destruct l as [|y l]; [now destruct i|]. destruct i as [|i]; simpl in *.
    + split; [lia | exact H].
    + destruct (IH _ _ H). split; [lia | assumption].
Qed.

Lemma nth_error_firstn_lt {A} n (l : list A) i :
  i < n -> nth_error (firstn n l) i = nth_error l i.
Proof.
  revert l i. induction n as [|n IH]; intros l i H; [lia|].
  destruct l as [|y l]; [reflexivity|]. destruct i as [|i]; simpl; [reflexivity|].
  apply IH. lia.
Qed.

Section SortFacts.
Context {A : Type}.
Variable before : A -> A -> bool.

Lemma insert_Forall (P : nat * A -> Prop) x l :
  Forall P (insert before x l) <-> P x /\ Forall P l.
Proof.
  induction l as [|y l IH]; simpl.
  - split; [intros H; inversion H; auto | intros [? ?]; auto].
  - destruct (before (snd x) (snd y)).
    + split; [intros H; inversion H; auto | intros [? ?]; auto].
    + split.
      * intros H. inversion H as [|? ? Hy Hr]; subst. apply IH in Hr as [? ?]. auto.
      * intros [Hx H]. inversion H; subst. constructor; auto. apply IH. auto.
Qed.

Lemma sort_Forall (P : nat * A -> Prop) l :
  Forall P (sort before l) <-> Forall P l.
Proof.
  induction l as [|x l IH]; simpl; [tauto|].
  rewrite insert_Forall, IH. split; [intros [? ?]; auto | intros H; inversion H; auto].
Qed.

Lemma insert_In x l p : In p (insert before x l) <-> p = x \/ In p l.
Proof.
  induction l as [|y l IH]; simpl; [intuition congruence|].
  destruct (before (snd x) (snd y)); simpl; [intuition congruence|].
  rewrite IH. intuition congruence.
Qed.

Lemma sort_In l p : In p (sort before l) <-> In p l.
Proof.
  induction l as [|x l IH]; simpl; [tauto|].
  rewrite insert_In, IH. intuition congruence.
Qed.

Lemma insert_length x l :
  List.length (insert before x l) = S (List.length l).
Proof.
  induction l as [|y l IH]; simpl; [reflexivity|].
  destruct (before (snd x) (snd y)); simpl; congruence.
Qed.

Lemma sort_length l : List.length (sort before l) = List.length l.
Proof. induction l as [|x l IH]; simpl; [|rewrite insert_length]; congruence. Qed.

Lemma insert_NoDup x l :
  ~ In (fst x) (map fst l) -> NoDup (map fst l) ->
  NoDup (map fst (insert before x l)).
Proof.
  induction l as [|y l IH]; simpl; intros Hx Hl.
  - constructor; auto.
  - destruct (before (snd x) (snd y)); simpl.
    + constructor; auto.
    + inversion Hl as [|? ? Hy Hl']; subst. constructor.
      * intros Hin. apply in_map_iff in Hin as (p & Hp & Hin).
        apply insert_In in Hin as [->|Hin]; [apply Hx; left; now symmetry|].
        apply Hy. rewrite <- Hp. now apply in_map.
      * apply IH; tauto.
Qed.

Lemma sort_NoDup l : NoDup (map fst l) -> NoDup (map fst (sort before l)).
Proof.
  induction l as [|x l IH]; simpl; intros H; [constructor|].
  inversion H as [|? ? Hx Hl]; subst. apply insert_NoDup; [|now apply IH].
  intros Hin. apply Hx. apply in_map_iff in Hin as (p & Hp & Hin).
  apply (proj1 (sort_In _ _)) in Hin. apply in_map_iff. eauto.
Qed.

End SortFacts.

Section SortOrder.
Context {A : Type}.
Variable before : A -> A -> bool.
Variable isna : A -> bool.
Hypothesis before_total :
  forall a b, isna a = false -> isna b = false -> before a b = false -> before b a = true.
Hypothesis before_trans :
  forall a b c, before a b = true -> before b c = true -> before a c = true.


#[local] Abbreviation present := (fun p : nat * A => isna (snd p) = false).

Lemma insert_sorted x l :
  present x -> Forall present l -> Forall (fun q => fst x < fst q) l ->
  StronglySorted (ahead before) l -> StronglySorted (ahead before) (insert before x l).
Proof.
  intros Hx Hl Hlt Hs. induction Hs as [|y l Hs IH Hy]; simpl.
  - repeat constructor.
  - inversion Hl as [|? ? Hpy Hl']; subst. inversion Hlt as [|? ? Hxy Hlt']; subst.
    destruct (before (snd x) (snd y)) eqn:E.
    + constructor; [constructor; auto|]. constructor; [split; auto|].
      rewrite Forall_forall in *. intros q Hq. split; [|auto].
      destruct (Hy q Hq) as [Hyq _]. eauto.
    + constructor; [auto|]. apply insert_Forall. split; [|exact Hy].
      split; [now apply before_total | rewrite E; discriminate].
Qed.

Lemma sort_sorted l :
  Forall present l -> StronglySorted (fun p q => fst p < fst q) l ->
  StronglySorted (ahead before) (sort before l).
Proof.
  intros Hl Hs. induction Hs as [|x l Hs IH Hx]; simpl; [constructor|].
  inversion Hl; subst. apply insert_sorted; auto; now apply sort_Forall.
Qed.
End SortOrder.

Lemma combine_seq_In {A} (l : list A) k i a :
  In (i, a) (combine (seq k (List.length l)) l) ->
  k <= i /\ nth_error l (i - k) = Some a.
Proof.
  revert k. induction l as [|x l IH]; simpl; intros k H; [tauto|].
  destruct H as [H|H].
  - injection H as <- <-. rewrite Nat.sub_diag. split; [lia | reflexivity].
  - apply IH in H as [Hk H]. split; [lia|].
    replace (i - k) with (S (i - S k)) by lia. exact H.
Qed.

Lemma combine_seq_sorted {A} (l : list A) k :
  StronglySorted (fun p q : nat * A => fst p < fst q) (combine (seq k (List.length l)) l).
Proof.
  revert k. induction l as [|x l IH]; simpl; intros k; constructor; [apply IH|].
  apply Forall_forall. intros [i a] H. apply combine_seq_In in H. simpl. lia.
Qed.

Lemma combine_seq_fst {A} (l : list A) k :
  map fst (combine (seq k (List.length l)) l) = seq k (List.length l).
Proof. revert k. induction l as [|x l IH]; simpl; intros k; [|rewrite IH]; reflexivity. Qed.

Lemma enumerate_In {A} (l : list A) i a :
  In (i, a) (enumerate l) -> nth_error l i = Some a.
Proof.
  intros H. apply combine_seq_In in H as [_ H]. now rewrite Nat.sub_0_r in H.
Qed.

Lemma filter_all {A} (f : A -> bool) l :
  Forall (fun x => f x = true) l -> filter f l = l.
Proof. induction 1 as [|x l Hx _ IH]; simpl; [|rewrite Hx, IH]; reflexivity. Qed.

Lemma filter_none {A} (f : A -> bool) l :
  Forall (fun x => f x = false) l -> filter f l = [].
Proof. induction 1 as [|x l Hx _ IH]; simpl; [|rewrite Hx, IH]; reflexivity. Qed.

Lemma enumerate_Forall_snd {A} (P : A -> Prop) (l : list A) :
  Forall P l -> Forall (fun p => P (snd p)) (enumerate l).
Proof.
  intros H. apply Forall_forall. intros [i a] Hin. apply enumerate_In in Hin.
  rewrite Forall_forall in H. apply H. eapply nth_error_In; eauto.
Qed.

(** With no missing value in the column, the kept positions are the first
    [n] of the ordered ones. *)
Lemma select_n_present {A} (before : A -> A -> bool) isna n (l : list A) :
  Forall (fun a => isna a = false) l ->
  select_n before isna n l = firstn n (map fst (sort before (enumerate l))).
Proof.
  intros H. unfold select_n.
  rewrite filter_all, filter_none, app_nil_r; auto.
  - now apply (enumerate_Forall_snd (fun a => isna a = false)).
  - apply (enumerate_Forall_snd (fun a => negb (isna a) = true)).
    eapply Forall_impl; [|exact H]. simpl. now intros a ->.
Qed.

Section SelectNCells.
Context {A : Type}.
Variable before : A -> A -> bool.
Variable isna : A -> bool.
Variable inj : A -> cell.
Variable leb : cell -> cell -> bool.
Hypothesis before_leb : forall a b, before a b = leb (inj b) (inj a).
Hypothesis before_total :
  forall a b, isna a = false -> isna b = false -> before a b = false -> before b a = true.
Hypothesis before_trans :
  forall a b c, before a b = true -> before b c = true -> before a c = true.

Variable n : nat.
Variable l : list A.
Hypothesis no_missing : Forall (fun a => isna a = false) l.

#[local] Abbreviation idx := (select_n before isna n l).
#[local] Abbreviation ordered := (sort before (enumerate l)).

Lemma select_n_eq : idx = firstn n (map fst ordered).
Proof. now apply select_n_present. Qed.

Lemma ordered_sorted : StronglySorted (ahead before) ordered.
Proof.
  apply sort_sorted with (isna := isna); auto.
  - now apply (enumerate_Forall_snd (fun a => isna a = false)).
  - apply combine_seq_sorted.
Qed.

Lemma ordered_nth i p :
  nth_error (map fst ordered) i = Some p ->
  exists a, nth_error ordered i = Some (p, a) /\ nth_error l p = Some a.
Proof.
  rewrite nth_error_map. destruct (nth_error ordered i) as [[p' a]|] eqn:E; [|discriminate].
  simpl. intros H. injection H as ->. exists a. split; [reflexivity|].
  apply enumerate_In. apply (proj1 (sort_In before _ _)). eapply nth_error_In; eauto.
Qed.

Lemma ordered_positions : forall p, In p (map fst ordered) <-> p < List.length l.
Proof.
  intros p. split; intros H.
  - apply in_map_iff in H as (q & <- & H). apply (proj1 (sort_In before _ _)) in H.
    apply (in_map fst) in H. unfold enumerate in H. rewrite combine_seq_fst in H.
    apply in_seq in H. lia.
  - assert (Hp : In p (seq 0 (List.length l))) by (apply in_seq; lia).
    rewrite <- (combine_seq_fst l 0) in Hp.
    apply in_map_iff in Hp as (q & <- & Hp). apply in_map.
    now apply (proj2 (sort_In before _ _)).
Qed.

Lemma select_n_length : List.length idx <= n.
Proof. rewrite select_n_eq. rewrite length_firstn. lia. Qed.

Lemma select_n_NoDup : NoDup idx.
Proof.
  rewrite select_n_eq. apply NoDup_firstn. apply sort_NoDup.
  unfold enumerate. rewrite combine_seq_fst. apply seq_NoDup.
Qed.

Lemma select_n_bound p : In p idx -> p < List.length l.
Proof. rewrite select_n_eq. intros H. apply ordered_positions. eapply In_firstn; eauto. Qed.

(** Descending, and on a tie in table order. *)
Lemma select_n_sorted i j p q :
  i < j -> nth_error idx i = Some p -> nth_error idx j = Some q ->
  exists x y,
    nth_error (map inj l) p = Some x /\ nth_error (map inj l) q = Some y /\
    leb y x = true /\ (leb x y = true -> p < q).
Proof.
  rewrite select_n_eq. intros Hij Hi Hj.
  apply nth_error_firstn_Some in Hi as [_ Hi]. apply nth_error_firstn_Some in Hj as [_ Hj].
  apply ordered_nth in Hi as (a & Hi & Ha). apply ordered_nth in Hj as (b & Hj & Hb).
  destruct (StronglySorted_nth_error _ _ _ _ _ _ ordered_sorted Hij Hi Hj) as [H1 H2].
  simpl in *. exists (inj a), (inj b). rewrite !nth_error_map, Ha, Hb.
  rewrite <- !before_leb. auto.
Qed.

(** No value left out is larger than a kept one. *)
Lemma select_n_maximal p q x y :
  nth_error (map inj l) p = Some x -> ~ In p idx -> In q idx ->
  nth_error (map inj l) q = Some y -> leb x y = true.
Proof.
  rewrite select_n_eq. intros Hx Hp Hq Hy.
  assert (Hpl : p < List.length l).
  { rewrite <- (length_map inj). apply nth_error_Some. congruence. }
  apply ordered_positions in Hpl. apply In_nth_error in Hpl as [j Hj].
  apply In_nth_error in Hq as [i Hi]. apply nth_error_firstn_Some in Hi as [Hin Hi].
  assert (Hnj : n <= j).
  { destruct (Nat.lt_ge_cases j n) as [Hlt|]; [|assumption]. exfalso. apply Hp.
    apply nth_error_In with j. now rewrite nth_error_firstn_lt. }
  apply ordered_nth in Hi as (b & Hi & Hb). apply ordered_nth in Hj as (a & Hj & Ha).
  assert (Hij : i < j) by lia.
  destruct (StronglySorted_nth_error _ _ _ _ _ _ ordered_sorted Hij Hi Hj) as [H1 _].
  simpl in H1. rewrite nth_error_map, Ha in Hx. rewrite nth_error_map, Hb in Hy.
  injection Hx as <-. injection Hy as <-. now rewrite <- before_leb.
Qed.
End SelectNCells.

(** ** Comparison of floats *)

Lemma compare_cont_spec m m' :
  CompareSpec (m = m') (m < m')%positive (m' < m)%positive
              (PosDef.Pos.compare_cont Eq m m').
Proof. exact (Pos.compare_spec m m'). Qed.

Lemma SFleb_present a b : SFleb a b = true -> float_isna a = false /\ float_isna b = false.
Proof. destruct a, b; simpl; try discriminate; auto. Qed.

Lemma SFleb_total a b :
  float_isna a = false -> float_isna b = false -> SFleb a b = false -> SFleb b a = true.
Proof.
  intros Ha Hb. unfold SFleb. rewrite (SFcompare_antisym a b).
  destruct (SFcompare a b) as [[| |]|] eqn:E; simpl; try discriminate; try reflexivity.
  destruct a, b; discriminate.
Qed.

Lemma SFleb_trans a b c : SFleb a b = true -> SFleb b c = true -> SFleb a c = true.
Proof.
  unfold SFleb, SFcompare.
  destruct a as [[]|[]| |[] m1 e1], b as [[]|[]| |[] m2 e2], c as [[]|[]| |[] m3 e3];
    try reflexivity; try discriminate; try (intros; discriminate);
    destruct (Z.compare_spec e1 e2), (Z.compare_spec e2 e3), (Z.compare_spec e1 e3);
    try reflexivity; try discriminate; try (intros; discriminate); try (exfalso; lia);
    subst;
    destruct (compare_cont_spec m1 m2), (compare_cont_spec m2 m3),
      (compare_cont_spec m1 m3);
    simpl; try reflexivity; try discriminate; try (intros; discriminate);
    try (exfalso; lia).
Qed.

(** ** Rows of a filtered or reordered table *)

Lemma select_map {A B} (g : A -> B) mask l :
  select mask (map g l) = map g (select mask l).
Proof.
  revert l. induction mask as [|b mask IH]; intros [|x l]; simpl; auto.
  destruct b; simpl; now rewrite IH.
Qed.

Lemma take_list_map {A B} (g : A -> B) idx l :
  take_list idx (map g l) = map g (take_list idx l).
Proof.
  unfold take_list. induction idx as [|i idx IH]; simpl; [reflexivity|].
  rewrite map_app, IH, nth_error_map. now destruct (nth_error l i).
Qed.

Lemma select_map_self {A} (p : A -> bool) l : select (map p l) l = filter p l.
Proof. induction l as [|x l IH]; simpl; [|destruct (p x); rewrite IH]; reflexivity. Qed.

Lemma take_list_In {A} idx (l : list A) x : In x (take_list idx l) -> In x l.
Proof.
  unfold take_list. intros H. apply in_flat_map in H as (i & _ & H).
  destruct (nth_error l i) eqn:E; [|contradiction].
  destruct H as [<-|[]]. eapply nth_error_In; eauto.
Qed.

Lemma take_list_length_le {A} idx (l : list A) :
  List.length (take_list idx l) <= List.length idx.
Proof.
  unfold take_list. induction idx as [|i idx IH]; simpl; [lia|].
  rewrite length_app. destruct (nth_error l i); simpl; lia.
Qed.

Lemma take_list_length {A} idx (l : list A) :
  Forall (fun i => i < List.length l) idx ->
  List.length (take_list idx l) = List.length idx.
Proof.
  unfold take_list. induction 1 as [|i idx Hi _ IH]; simpl; [reflexivity|].
  rewrite length_app, IH. apply nth_error_Some in Hi.
  destruct (nth_error l i); [reflexivity | contradiction].
Qed.

Lemma select_length {A B} mask (l : list A) (l' : list B) :
  List.length l = List.length l' ->
  List.length (select mask l) = List.length (select mask l').
Proof.
  revert l l'. induction mask as [|b mask IH]; intros [|x l] [|y l'] H; simpl in *;
    try discriminate; auto.
  destruct b; simpl; auto.
Qed.

Lemma cells_select mask s :
  cells (on_values (fun A => @select A mask) s) = select mask (cells s).
Proof. destruct s; simpl; now rewrite select_map. Qed.

Lemma cells_take_list idx s :
  cells (on_values (fun A => @take_list A idx) s) = take_list idx (cells s).
Proof. destruct s; simpl; now rewrite take_list_map. Qed.

Lemma lookup_on_rows f df c :
  lookup c (columns (on_rows f df)) = option_map (on_values f) (lookup c (columns df)).
Proof.
  unfold on_rows. simpl. induction (columns df) as [|[c' s] cols IH]; simpl; [reflexivity|].
  destruct (String.eqb c c'); [reflexivity | exact IH].
Qed.

Lemma column_cells_loc df mask c :
  column_cells (loc df mask) c = select mask (column_cells df c).
Proof.
  unfold column_cells, loc. rewrite lookup_on_rows.
  destruct (lookup c (columns df)); simpl; [apply cells_select | now destruct mask].
Qed.

Lemma column_cells_take df idx c :
  column_cells (take df idx) c = take_list idx (column_cells df c).
Proof.
  unfold column_cells, take. rewrite lookup_on_rows.
  destruct (lookup c (columns df)); simpl; [apply cells_take_list|].
  unfold take_list. induction idx as [|i idx IH]; simpl; [reflexivity|].
  rewrite <- IH. now destruct i.
Qed.

(** ** The rows classified Up *)








(** ** Running the page *)

Lemma bind_Ok {A B} (m : M A) (k : A -> M B) st st' b :
  bind m k st = (st', Ok b) ->
  exists a st1, m st = (st1, Ok a) /\ k a st1 = (st', Ok b).
Proof.
  unfold bind. destruct (m st) as [st1 [a|e]]; [eauto | discriminate].
Qed.

Lemma lift_Ok {A} (r : result A) st st' a :
  lift r st = (st', Ok a) -> st' = st /\ r = Ok a.
Proof. unfold lift. intros H. injection H as <- ->. auto. Qed.

(** ** Distinct identifiers *)






(** The kept values are a selection of the column, in its order. *)
Lemma unique_from_select seen l : exists mask, unique_from seen l = select mask l.
Proof.
  revert seen. induction l as [|x l IH]; intros seen; simpl.
  - now exists [].
  - destruct (existsb (cell_eqb x) seen).
    + destruct (IH seen) as [mask ->]. now exists (false :: mask).
    + destruct (IH (x :: seen)) as [mask ->]. now exists (true :: mask).
Qed.

(** ** Annotation lookups *)

Section Annotation.
Variable env : Env.

(** One pass of the loop body sends one request, whatever comes back. *)
Lemma annotate_sent gene st st' r :
  annotate env gene st = (st', r) ->
  sent st' = sent st ++ [lookup_request env gene].
Proof.
  unfold annotate, bind, request, lift, emit. simpl.
  repeat match goal with
         | |- context [match ?x with _ => _ end] => destruct x; simpl
         end;
    intros H; injection H as <- _; reflexivity.
Qed.

Lemma for_each_annotate_sent genes st st' r :
  for_each (annotate env) genes st = (st', r) ->
  exists k,
    k <= List.length genes /\
    sent st' = sent st ++ map (lookup_request env) (firstn k genes) /\
    (r = Ok tt -> k = List.length genes).
Proof.
  revert st. induction genes as [|g genes IH]; intros st H; simpl in H.
  - injection H as <- <-. exists 0. simpl. rewrite app_nil_r. auto.
  - unfold bind in H. destruct (annotate env g st) as [st1 [[]|e]] eqn:Hg;
      apply annotate_sent in Hg.
    + destruct (IH _ H) as (k & Hk & Hsent & Hall). exists (S k). simpl.
      repeat split; [lia | | intros Hr; f_equal; auto].
      rewrite Hsent, Hg, <- app_assoc. reflexivity.
    + injection H as <- <-. exists 1. simpl.
      repeat split; [lia | exact Hg | discriminate].
Qed.
End Annotation.



(** ** What a computation adds to the page *)

Lemma quiet_ret {A} (a : A) : quiet (ret a).
Proof.
  intros st st' r H. injection H as <- _. exists []. now rewrite app_nil_r.
Qed.

Lemma quiet_lift {A} (x : result A) : quiet (lift x).
Proof.
  intros st st' r H. injection H as <- _. exists []. now rewrite app_nil_r.
Qed.

Lemma quiet_emit w : is_error w = false -> quiet (emit w).
Proof.
  intros Hw st st' r H. injection H as <- _. exists [w]. simpl. auto.
Qed.

Lemma quiet_request env q : quiet (request env q).
Proof.
  intros st st' r H. injection H as <- _. exists []. simpl. now rewrite app_nil_r.
Qed.

Lemma quiet_bind {A B} (m : M A) (k : A -> M B) :
  quiet m -> (forall a, quiet (k a)) -> quiet (bind m k).
Proof.
  intros Hm Hk st st' r H. unfold bind in H.
  destruct (m st) as [st1 [a|e]] eqn:E; destruct (Hm _ _ _ E) as (s1 & H1 & F1).
  - destruct (Hk a _ _ _ H) as (s2 & H2 & F2). exists (s1 ++ s2).
    rewrite H2, H1, app_assoc. split; [reflexivity | now apply Forall_app].
  - injection H as <- _. eauto.
Qed.

Lemma quiet_for_each {A} (body : A -> M unit) l :
  (forall x, quiet (body x)) -> quiet (for_each body l).
Proof.
  intros Hbody. induction l as [|x l IH]; simpl.
  - apply quiet_ret.
  - apply quiet_bind; auto.
Qed.

Create HintDb quiet.
#[local] Hint Resolve quiet_ret quiet_lift quiet_request quiet_for_each : quiet.
#[local] Hint Extern 1 (quiet (emit _)) => apply quiet_emit; reflexivity : quiet.
#[local] Hint Extern 2 (quiet (bind _ _)) => apply quiet_bind; [|intro] : quiet.
#[local] Hint Extern 3 (quiet (if ?b then _ else _)) => destruct b : quiet.

Section Enrichment.
Variable env : Env.

Lemma quiet_annotate gene : quiet (annotate env gene).
Proof. unfold annotate. auto 20 with quiet. Qed.

Lemma quiet_annotation_section df : quiet (annotation_section env df).
Proof.
  unfold annotation_section. pose proof quiet_annotate. auto 20 with quiet.
Qed.

(** The body of the [try] only adds to the page, and never an error
    message. *)
Lemma quiet_enrichment_body symbols : quiet (enrichment_body env symbols).
Proof. unfold enrichment_body. auto 30 with quiet. Qed.

(** Neither does what runs before the enrichment. *)
Lemma quiet_report_before_enrichment file :
  quiet (report_before_enrichment env file).
Proof.
  unfold report_before_enrichment, summary_section, top_genes_section,
    bar_plot_section.
  pose proof quiet_annotation_section. auto 40 with quiet.
Qed.

(** The section as a whole never raises. *)
Lemma enrichment_section_returns df symbols st :
  gene_symbols env df = Ok symbols ->
  exists st', enrichment_section env df st = (st', Ok tt).
Proof.
  intros Hs. unfold enrichment_section, bind, try_except, lift. simpl. rewrite Hs.
  destruct (enrichment_body env symbols _) as [st2 [[]|e]]; unfold emit; eauto.
Qed.

(** A report that reaches the enrichment has a Gene_Symbol column. *)
Lemma reached_enrichment_has_symbols file st st1 df :
  report_before_enrichment env file st = (st1, Ok df) ->
  exists symbols, gene_symbols env df = Ok symbols.
Proof.
  unfold report_before_enrichment. intros H.
  repeat (apply bind_Ok in H as (? & ? & ? & H)).
  injection H as _ <-.
  match goal with
  | Ha : annotation_section env _ _ = _ |- _ =>
      unfold annotation_section in Ha;
      apply bind_Ok in Ha as (? & ? & _ & Ha);
      apply bind_Ok in Ha as (? & ? & Hg & _);
      apply lift_Ok in Hg as [_ Hg]
  end.
  unfold gene_list in *. unfold gene_symbols.
  match goal with
  | Hg : rbind (getitem ?d _) _ = _ |- context [getitem ?d' _] =>
      destruct (getitem d "Gene_Symbol") eqn:E; [|discriminate]
  end.
  simpl. eauto.
Qed.
End Enrichment.

(** C7.  When the report has reached the enrichment and any step of its
    two-step operation raises, the page ends as follows: everything
    rendered before the enrichment, unchanged; the section header; what
    the operation had shown before it raised, none of it an error
    message; one error message carrying the exception; then the export.
    The run itself returns normally. *)
Theorem C7_enrichment_failure_is_one_error
        (env : Env) (file : string) (df : DataFrame) (symbols : list string)
        (st1 st2 : Session) (e : exn) :
  report_before_enrichment env file (mkSession [title] []) = (st1, Ok df) ->
  gene_symbols env df = Ok symbols ->
  enrichment_body env symbols (mkSession (out st1 ++ [enrichment_header]) (sent st1))
    = (st2, Raise e) ->
  exists shown page,
    Forall (fun w => is_error w = false) shown /\
    page = out st1 ++ [enrichment_header] ++ shown ++ [enrichment_error env e]
           ++ [Subheader "📄 Export KnowDEGs"; download_button env df] /\
    app env (Some file) start = (mkSession page (sent st2), Ok tt) /\
    filter is_error page = [enrichment_error env e].
Proof.
  intros Hbefore Hsymbols Hbody.
  destruct (quiet_enrichment_body _ _ _ _ _ Hbody) as (shown & Hout & Hshown).
  destruct (quiet_report_before_enrichment _ _ _ _ _ Hbefore) as (shown1 & Hout1 & Hshown1).
  simpl in Hout, Hout1.
  exists shown. eexists. split; [exact Hshown|]. split; [reflexivity|]. split.
  - unfold app, bind at 1, emit at 1. simpl. fold title.
    unfold bind at 1. rewrite Hbefore.
    unfold bind at 1, enrichment_section, bind at 1, emit at 1. simpl.
    unfold bind at 1, lift at 1. rewrite Hsymbols.
    unfold try_except. rewrite Hbody.
    unfold export_section, bind, emit. simpl. rewrite Hout. simpl.
    rewrite <- !app_assoc. reflexivity.
  - rewrite Hout1. simpl. rewrite !filter_app. simpl.
    rewrite filter_app, !filter_none by assumption. reflexivity.
Qed.

(** C8.  When both Enrichr calls answer and the term array is empty, the
    enrichment section shows its header and the notice "No enrichment
    results found."; the notice is an information element, which no
    exception's error message is. *)
Theorem C8_empty_terms_is_info
        (env : Env) (df : DataFrame) (symbols : list string) (st : Session)
        (add_resp enr_resp : Response) (added user_list_id enriched : json) :
  gene_symbols env df = Ok symbols ->
  http env (List.length (sent st)) (add_list_request symbols) = Ok add_resp ->
  json_body add_resp = Ok added ->
  subscript added "userListId" = Ok user_list_id ->
  http env (S (List.length (sent st))) (enrich_request user_list_id) = Ok enr_resp ->
  json_body enr_resp = Ok enriched ->
  subscript enriched "KEGG_2021_Human" = Ok (JList []) ->
  enrichment_section env df st =
    (mkSession (out st ++ [enrichment_header; Info "No enrichment results found."])
               (sent st ++ [add_list_request symbols; enrich_request user_list_id]),
     Ok tt) /\
  is_error (Info "No enrichment results found.") = false /\
  forall e, is_error (enrichment_error env e) = true.
Proof.
  intros Hsymbols Hadd Hadded Hid Henr Henriched Hterms.
  split; [|split; reflexivity].
  unfold enrichment_section, bind at 1, emit at 1. simpl.
  unfold bind at 1, lift at 1. rewrite Hsymbols.
  unfold try_except, enrichment_body.
  unfold bind at 1, request at 1. simpl. rewrite Hadd.
  unfold bind at 1, lift at 1. rewrite Hadded.
  unfold bind at 1, lift at 1. rewrite Hid.
  unfold bind at 1, request at 1. simpl. rewrite last_length, Henr.
  unfold bind at 1, lift at 1. rewrite Henriched.
  unfold bind at 1, lift at 1. rewrite Hterms. simpl.
  unfold emit. simpl. rewrite <- !app_assoc. reflexivity.
Qed.


Lemma C7_enrichment_failure_is_one_error_witness :
  let env := example_env (Ok tp53_brca1) unreachable unreachable in
  let before := report_before_enrichment env "degs.csv" (mkSession [title] []) in
  let st1 := fst before in
  let st2 := mkSession (out st1 ++ [enrichment_header])
                       (sent st1 ++ [add_list_request ["TP53"; "BRCA1"]]) in
  before = (st1, Ok tp53_brca1_loaded) /\
  gene_symbols env tp53_brca1_loaded = Ok ["TP53"; "BRCA1"] /\
  enrichment_body env ["TP53"; "BRCA1"]
                  (mkSession (out st1 ++ [enrichment_header]) (sent st1))
    = (st2, Raise (LibraryError "ConnectionError")) /\
  exists page,
    app env (Some "degs.csv") start = (mkSession page (sent st2), Ok tt) /\
    filter is_error page = [enrichment_error env (LibraryError "ConnectionError")].
Proof.
  intros env before st1 st2.
  assert (H1 : before = (st1, Ok tp53_brca1_loaded)) by (vm_compute; reflexivity).
  assert (H2 : gene_symbols env tp53_brca1_loaded = Ok ["TP53"; "BRCA1"])
    by (vm_compute; reflexivity).
  assert (H3 : enrichment_body env ["TP53"; "BRCA1"]
                 (mkSession (out st1 ++ [enrichment_header]) (sent st1))
               = (st2, Raise (LibraryError "ConnectionError")))
    by (vm_compute; reflexivity).
  split; [exact H1|]. split; [exact H2|]. split; [exact H3|].
  destruct (C7_enrichment_failure_is_one_error env "degs.csv" tp53_brca1_loaded
              ["TP53"; "BRCA1"] st1 st2 (LibraryError "ConnectionError") H1 H2 H3)
    as (shown & page & _ & _ & Happ & Herr).
  exists page. split; [exact Happ | exact Herr].
Defined.
Lemma C8_empty_terms_is_info_witness :
  let env := example_env (Ok tp53_brca1) (Ok list_added) (Ok no_terms) in
  gene_symbols env tp53_brca1_loaded = Ok ["TP53"; "BRCA1"] /\
  enrichment_section env tp53_brca1_loaded start =
    (mkSession [enrichment_header; Info "No enrichment results found."]
               [add_list_request ["TP53"; "BRCA1"]; enrich_request (JInt 42)],
     Ok tt).
Proof.
  intros env. split; [reflexivity|].
  apply (C8_empty_terms_is_info env tp53_brca1_loaded ["TP53"; "BRCA1"] start
           list_added no_terms
           (JDict [("shortId", JStr "abc"); ("userListId", JInt 42)]) (JInt 42)
           (JDict [("KEGG_2021_Human", JList [])])); reflexivity.
Defined.

(** ** Missing columns *)

Lemma has_column_on_rows f df c : has_column (on_rows f df) c = has_column df c.
Proof.
  unfold has_column. rewrite lookup_on_rows. now destruct (lookup c (columns df)).
Qed.

Lemma load_table_has_column df0 df c :
  load_table df0 = Ok df -> c <> "Regulation" -> c <> "IsHub" ->
  has_column df c = has_column df0 c.
Proof.
  intros H H1 H2. destruct (load_table_inv _ _ H) as (fc & ys & _ & _ & _ & Hcols).
  unfold has_column at 1 2. rewrite Hcols. simpl.
  destruct (has_column df0 "IsHub"); now rewrite !lookup_assign_neq by assumption.
Qed.

Lemma getitems_missing df cs c :
  In c cs -> has_column df c = false ->
  exists missing, getitems df cs = Raise (KeyError missing) /\ In c missing.
Proof.
  intros Hin Habs. unfold getitems.
  assert (H : In c (filter (fun c => negb (has_column df c)) cs)).
  { apply filter_In. split; [exact Hin | now rewrite Habs]. }
  destruct (filter _ cs) as [|c' missing]; [contradiction|]. eauto.
Qed.

Lemma up_genes_has_column df up c :
  up_genes df = Ok up -> has_column up c = has_column df c.
Proof.
  unfold up_genes. destruct (getitem df "log2(FC)") as [fc|]; simpl; [|discriminate].
  destruct (gt_1_mask fc); simpl; [|discriminate].
  intros H. injection H as <-. apply has_column_on_rows.
Qed.

Lemma nlargest_has_column n k df top c :
  nlargest n k df = Ok top -> has_column top c = has_column df c.
Proof.
  unfold nlargest. destruct (getitem df k) as [s|]; simpl; [|discriminate].
  destruct (nlargest_idx n s); simpl; [|discriminate].
  intros H. injection H as <-. apply has_column_on_rows.
Qed.

(** A column that the header lacks is still lacking in the top rows. *)
Lemma top_up_lacks_column df0 df up top c :
  In c ["Gene_Symbol"; "Padj"] -> has_column df0 c = false ->
  load_table df0 = Ok df -> up_genes df = Ok up -> nlargest 5 "log2(FC)" up = Ok top ->
  exists missing, getitems top shown_columns = Raise (KeyError missing) /\ In c missing.
Proof.
  intros Hc Habs Hload Hup Htop. apply getitems_missing.
  - unfold shown_columns. simpl in *. intuition.
  - rewrite (nlargest_has_column _ _ _ _ _ Htop), (up_genes_has_column _ _ _ Hup).
    rewrite (load_table_has_column _ _ _ Hload); [exact Habs | |];
      destruct Hc as [<-|[<-|[]]]; discriminate.
Qed.


Section Halt.
Variable env : Env.
Variable file : string.

Lemma halts_when_parser_raises e :
  read_csv env file = Raise e ->
  app env (Some file) start = (mkSession [title] [], Raise e).
Proof.
  intros H. unfold app, report_before_enrichment, bind, lift, emit. simpl.
  now rewrite H.
Qed.

Lemma halts_without_fold_change df0 :
  read_csv env file = Ok df0 -> has_column df0 "log2(FC)" = false ->
  app env (Some file) start = (mkSession [title] [], Raise (KeyError ["log2(FC)"])).
Proof.
  intros H Habs. unfold app, report_before_enrichment, bind, lift, emit. simpl.
  rewrite H. unfold load_table, getitem. unfold has_column in Habs.
  destruct (lookup "log2(FC)" (columns df0)); [discriminate | reflexivity].
Qed.

Ltac halted :=
  do 2 eexists; split; [reflexivity | split; [reflexivity | repeat constructor]].

Lemma halts_without_shown_column df0 c :
  read_csv env file = Ok df0 -> In c ["Gene_Symbol"; "Padj"] ->
  has_column df0 c = false ->
  exists st e,
    app env (Some file) start = (st, Raise e) /\ sent st = [] /\
    Forall before_tables (out st).
Proof.
  intros H Hc Habs.
  unfold app, report_before_enrichment, summary_section, top_genes_section,
    bind, lift, emit, ret. simpl. rewrite H.
  destruct (load_table df0) as [df|] eqn:Hload; [|halted].
  destruct (up_genes df) as [up|] eqn:Hup; [|halted].
  destruct (down_genes df) as [down|]; [|halted].
  destruct (hub_genes df) as [hub|]; [|halted]. simpl.
  destruct (nlargest 5 "log2(FC)" up) as [top_up|] eqn:Htop; [|halted].
  destruct (nsmallest 5 "log2(FC)" down) as [top_down|]; [|halted].
  destruct (top_up_lacks_column _ _ _ _ _ Hc Habs Hload Hup Htop) as (missing & -> & _).
  halted.
Qed.

(** When loader and aggregator go through, the page shows the success
    message and the counts before the column selection raises. *)
Lemma halts_at_column_selection df0 df up down hub top_up top_down c :
  read_csv env file = Ok df0 -> In c ["Gene_Symbol"; "Padj"] ->
  has_column df0 c = false ->
  load_table df0 = Ok df ->
  up_genes df = Ok up -> down_genes df = Ok down -> hub_genes df = Ok hub ->
  nlargest 5 "log2(FC)" up = Ok top_up -> nsmallest 5 "log2(FC)" down = Ok top_down ->
  exists missing,
    In c missing /\
    app env (Some file) start =
      (mkSession [title; Success "✅ File loaded successfully!";
                  Subheader "🔍 Summary Statistics";
                  Metric "Upregulated Genes" (nrows up);
                  Metric "Downregulated Genes" (nrows down);
                  Metric "Hub Genes" (nrows hub);
                  Subheader "⭐ Top Up & Downregulated Genes";
                  Markdown "**Top 5 Upregulated Genes**"] [],
       Raise (KeyError missing)).
Proof.
  intros H Hc Habs Hload Hup Hdown Hhub Htop Hbottom.
  destruct (top_up_lacks_column _ _ _ _ _ Hc Habs Hload Hup Htop) as (missing & Hsel & Hin).
  exists missing. split; [exact Hin|].
  unfold app, report_before_enrichment, summary_section, top_genes_section,
    bind, lift, emit, ret. simpl.
  rewrite H, Hload, Hup, Hdown, Hhub. simpl. rewrite Htop, Hbottom, Hsel. reflexivity.
Qed.
End Halt.

(** C3, amended.  A stream that the parser rejects, or whose header lacks
    log2(FC), makes the run raise (the parser's exception, or KeyError)
    with nothing but the title on the page.  A header that lacks
    Gene_Symbol or Padj is not rejected by the loader: the run still
    raises, before any request is sent and before any table, chart or
    download button is rendered; when loader and aggregator go through,
    this happens at the column selection of the top-5 table, after the
    success message and the three counts have been shown. *)
Theorem C3_unusable_table_halts_the_report (env : Env) (file : string) :
  (forall e, read_csv env file = Raise e ->
     app env (Some file) start = (mkSession [title] [], Raise e)) /\
  (forall df0, read_csv env file = Ok df0 -> has_column df0 "log2(FC)" = false ->
     app env (Some file) start = (mkSession [title] [], Raise (KeyError ["log2(FC)"]))) /\
  (forall df0 c,
     read_csv env file = Ok df0 -> In c ["Gene_Symbol"; "Padj"] ->
     has_column df0 c = false ->
     exists st e,
       app env (Some file) start = (st, Raise e) /\ sent st = [] /\
       Forall before_tables (out st)) /\
  (forall df0 df up down hub top_up top_down c,
     read_csv env file = Ok df0 -> In c ["Gene_Symbol"; "Padj"] ->
     has_column df0 c = false ->
     load_table df0 = Ok df ->
     up_genes df = Ok up -> down_genes df = Ok down -> hub_genes df = Ok hub ->
     nlargest 5 "log2(FC)" up = Ok top_up -> nsmallest 5 "log2(FC)" down = Ok top_down ->
     exists missing,
       In c missing /\
       app env (Some file) start =
         (mkSession [title; Success "✅ File loaded successfully!";
                     Subheader "🔍 Summary Statistics";
                     Metric "Upregulated Genes" (nrows up);
                     Metric "Downregulated Genes" (nrows down);
                     Metric "Hub Genes" (nrows hub);
                     Subheader "⭐ Top Up & Downregulated Genes";
                     Markdown "**Top 5 Upregulated Genes**"] [],
          Raise (KeyError missing))).
Proof.
  split; [apply halts_when_parser_raises|].
  split; [apply halts_without_fold_change|].
  split; [apply halts_without_shown_column | apply halts_at_column_selection].
Qed.

(** C3 as stated fails on a table without Padj: the loader returns the
    augmented table, the page announces the successful load and shows the
    counts, and only the column selection of the top-5 table raises. *)
Lemma C3_table_without_padj_is_loaded :
  has_column no_padj "Padj" = false /\
  load_table no_padj = Ok no_padj_loaded /\
  app (example_env (Ok no_padj) unreachable unreachable) (Some "degs.csv") start =
    (mkSession [title; Success "✅ File loaded successfully!";
                Subheader "🔍 Summary Statistics";
                Metric "Upregulated Genes" 1;
                Metric "Downregulated Genes" 1;
                Metric "Hub Genes" 0;
                Subheader "⭐ Top Up & Downregulated Genes";
                Markdown "**Top 5 Upregulated Genes**"] [],
     Raise (KeyError ["Padj"])).
Proof. repeat split. Qed.

Lemma C3_unusable_table_halts_the_report_witness :
  read_csv (example_env (Ok no_padj) unreachable unreachable) "degs.csv" = Ok no_padj /\
  has_column no_padj "Padj" = false /\
  exists st e,
    app (example_env (Ok no_padj) unreachable unreachable) (Some "degs.csv") start
      = (st, Raise e) /\
    sent st = [] /\ Forall before_tables (out st).
Proof.
  split; [reflexivity|]. split; [reflexivity|].
  destruct (C3_unusable_table_halts_the_report
              (example_env (Ok no_padj) unreachable unreachable) "degs.csv")
    as (_ & _ & H & _).
  apply (H no_padj "Padj"); [reflexivity | simpl; auto | reflexivity].
Defined.

(** * Further properties of the script *)

(** ** Well-formed tables *)

Lemma lookup_None_names c cols : lookup c cols = None <-> ~ In c (map fst cols).
Proof.
  induction cols as [|[c' s] cols IH]; simpl; [tauto|].
  destruct (String.eqb c c') eqn:E.
  - apply String.eqb_eq in E. subst. split; [discriminate | intros H; exfalso; auto].
  - apply String.eqb_neq in E. rewrite IH. split; [intros H [H'|H']; auto | tauto].
Qed.

Lemma lookup_Some_In c cols s : lookup c cols = Some s -> In (c, s) cols.
Proof.
  induction cols as [|[c' s'] cols IH]; simpl; [discriminate|].
  destruct (String.eqb c c') eqn:E; [|auto].
  apply String.eqb_eq in E. subst. intros H. injection H as ->. now left.
Qed.

Lemma assign_sizes n c s cols :
  Forall (fun x => size (snd x) = n) cols -> size s = n ->
  Forall (fun x => size (snd x) = n) (assign c s cols).
Proof.
  intros H Hs. induction H as [|[c' s'] cols Hx H IH]; simpl.
  - auto.
  - destruct (String.eqb c c'); constructor; auto.
Qed.

Lemma assign_NoDup c s cols : NoDup (map fst cols) -> NoDup (map fst (assign c s cols)).
Proof.
  intros H. rewrite names_assign. destruct (lookup c cols) eqn:E.
  - now rewrite app_nil_r.
  - apply lookup_None_names in E. apply NoDup_app; [exact H | repeat constructor; auto |].
    intros x Hx [<-|[]]. contradiction.
Qed.

Lemma wf_setitem df c s : wf df -> size s = nrows df -> wf (setitem df c s).
Proof.
  intros [H1 H2] Hs. split; simpl; [now apply assign_sizes | now apply assign_NoDup].
Qed.

Lemma take_list_length_eq {A B} idx (l : list A) (l' : list B) :
  List.length l = List.length l' ->
  List.length (take_list idx l) = List.length (take_list idx l').
Proof.
  intros H. unfold take_list. induction idx as [|i idx IH]; simpl; [reflexivity|].
  rewrite !length_app, IH. f_equal.
  destruct (nth_error l i) eqn:E, (nth_error l' i) eqn:E'; try reflexivity.
  - apply nth_error_None in E'. assert (nth_error l i <> None) by congruence.
    apply nth_error_Some in H0. lia.
  - apply nth_error_None in E. assert (nth_error l' i <> None) by congruence.
    apply nth_error_Some in H0. lia.
Qed.

Lemma wf_on_rows f df :
  (forall A B (l : list A) (l' : list B),
      List.length l = List.length l' -> List.length (f A l) = List.length (f B l')) ->
  wf df -> wf (on_rows f df).
Proof.
  intros Hf [H1 H2]. split; simpl.
  - apply Forall_forall. intros [c s] Hin. apply in_map_iff in Hin as ([c' s'] & Heq & Hin).
    injection Heq as <- <-. rewrite Forall_forall in H1. specialize (H1 _ Hin).
    simpl in *. unfold size in *.
    destruct s'; simpl in *; rewrite length_map in *; apply Hf;
      now rewrite length_seq.
  - rewrite map_map. simpl. exact H2.
Qed.

Lemma wf_loc df mask : wf df -> wf (loc df mask).
Proof. apply wf_on_rows. intros. now apply select_length. Qed.

Lemma wf_take df idx : wf df -> wf (take df idx).
Proof. apply wf_on_rows. intros. now apply take_list_length_eq. Qed.

Lemma wf_load_table df0 df : wf df0 -> load_table df0 = Ok df -> wf df.
Proof.
  intros Hwf H. unfold load_table, getitem, apply in H.
  destruct (lookup "log2(FC)" (columns df0)) as [fc|] eqn:Hfc; simpl in H; [|discriminate].
  destruct (mapM regulation (cells fc)) as [ys|] eqn:Hys; simpl in H; [|discriminate].
  assert (Hsize : size (Object (map Some ys)) = nrows df0).
  { unfold size. simpl. rewrite !length_map.
    apply mapM_Forall2, Forall2_length in Hys. rewrite <- Hys.
    destruct Hwf as [Hs _]. rewrite Forall_forall in Hs.
    apply (Hs _ (lookup_Some_In _ _ _ Hfc)). }
  pose proof (wf_setitem _ "Regulation" _ Hwf Hsize) as Hwf1.
  destruct (negb _); injection H as <-; [|exact Hwf1].
  apply wf_setitem; [exact Hwf1|]. unfold size. simpl.
  now rewrite length_map, repeat_length.
Qed.

(** X1.  Every table the script derives is well formed when the parsed
    one is: the loaded table, the up-, down- and hub-gene tables, and the
    top tables taken from them have one value per row in every column and
    no label twice. *)
Theorem derived_tables_are_well_formed (df0 df : DataFrame) :
  wf df0 -> load_table df0 = Ok df ->
  wf df /\
  forall t,
    up_genes df = Ok t \/ down_genes df = Ok t \/ hub_genes df = Ok t ->
    wf t /\
    forall n t',
      nlargest n "log2(FC)" t = Ok t' \/ nsmallest n "log2(FC)" t = Ok t' -> wf t'.
Proof.
  intros Hwf0 Hload. pose proof (wf_load_table _ _ Hwf0 Hload) as Hwf.
  split; [exact Hwf|]. intros t Ht.
  assert (Hwft : wf t).
  { unfold up_genes, down_genes, hub_genes in Ht.
    destruct Ht as [Ht|[Ht|Ht]];
      match type of Ht with
      | rbind (getitem ?d ?c) _ = _ => destruct (getitem d c) as [s|]; simpl in Ht;
                                       [|discriminate]
      end;
      match type of Ht with
      | rbind ?m _ = _ => destruct m as [mask|]; simpl in Ht; [|discriminate]
      end;
      injection Ht as <-; now apply wf_loc. }
  split; [exact Hwft|]. intros n t' Ht'.
  unfold nlargest, nsmallest in Ht'.
  destruct (getitem t "log2(FC)") as [s|]; simpl in Ht'; [|destruct Ht'; discriminate].
  destruct Ht' as [Ht'|Ht'];
    match type of Ht' with
    | rbind ?m _ = _ => destruct m as [idx|]; simpl in Ht'; [|discriminate]
    end;
    injection Ht' as <-; now apply wf_take.
Qed.

Lemma derived_tables_are_well_formed_witness :
  wf tp53_brca1 /\ load_table tp53_brca1 = Ok tp53_brca1_loaded /\ wf tp53_brca1_loaded.
Proof.
  assert (Hwf : wf tp53_brca1).
  { split; simpl.
    - repeat constructor.
    - repeat constructor; simpl; intuition discriminate. }
  split; [exact Hwf|]. split; [reflexivity|].
  exact (proj1 (derived_tables_are_well_formed tp53_brca1 tp53_brca1_loaded Hwf eq_refl)).
Defined.

(** ** What makes the loader raise *)

Lemma mapM_regulation_outcome l :
  match mapM regulation l with
  | Ok ys => forall s, ~ In (CStr s) l
  | Raise e => e = TypeError /\ exists s, In (CStr s) l
  end.
Proof.
  induction l as [|x l IH]; simpl; [auto|].
  unfold regulation at 1. destruct x as [z|f|b|s]; simpl;
    try (destruct (mapM regulation l) as [ys|e]; simpl;
         [intros s [H|H]; [discriminate | now apply (IH s)]
         | destruct IH as (-> & s & Hs); split; [reflexivity | exists s; now right]]).
  split; [reflexivity | exists s; now left].
Qed.

(** X2.  The loader raises in two cases only: KeyError when the table has
    no log2(FC) column, TypeError when a log2(FC) cell is text.  In every
    other case, missing values included, it returns a table. *)
Theorem loader_raises_only_on_absent_or_text_fold_change (df0 : DataFrame) :
  match load_table df0 with
  | Ok _ =>
      has_column df0 "log2(FC)" = true /\
      forall s, ~ In (CStr s) (column_cells df0 "log2(FC)")
  | Raise e =>
      (e = KeyError ["log2(FC)"] /\ has_column df0 "log2(FC)" = false) \/
      (e = TypeError /\ exists s, In (CStr s) (column_cells df0 "log2(FC)"))
  end.
Proof.
  unfold load_table, getitem, apply, has_column, column_cells.
  destruct (lookup "log2(FC)" (columns df0)) as [fc|]; simpl; [|now left].
  pose proof (mapM_regulation_outcome (cells fc)) as H.
  destruct (mapM regulation (cells fc)) as [ys|e]; simpl; [split; auto | now right].
Qed.

(** ** Loading twice *)

Lemma assign_same c s cols : lookup c cols = Some s -> assign c s cols = cols.
Proof.
  induction cols as [|[c' s'] cols IH]; simpl; [discriminate|].
  destruct (String.eqb c c') eqn:E.
  - intros H. now injection H as ->.
  - intros H. now rewrite IH.
Qed.

(** X3.  Loading is idempotent: the loader returns a table that it has
    produced as it is. *)
Theorem load_table_idempotent (df0 df : DataFrame) :
  load_table df0 = Ok df -> load_table df = Ok df.
Proof.
  intros H.
  destruct (load_table_regulation _ _ H) as (fc & ys & Hfc0 & Hys & Hreg).
  pose proof (load_table_fc _ _ _ H Hfc0) as Hfc.
  pose proof (load_table_has_ishub _ _ H) as Hhub.
  unfold load_table, getitem, apply. rewrite Hfc. simpl. rewrite Hys. simpl.
  assert (Heq : setitem df "Regulation" (Object (map Some ys)) = df).
  { unfold setitem. rewrite (assign_same _ _ _ Hreg). now destruct df. }
  rewrite Heq, Hhub. reflexivity.
Qed.

Lemma load_table_idempotent_witness :
  load_table tp53_brca1 = Ok tp53_brca1_loaded /\
  load_table tp53_brca1_loaded = Ok tp53_brca1_loaded.
Proof.
  split; [reflexivity|]. apply (load_table_idempotent tp53_brca1). reflexivity.
Defined.

(** ** Selecting columns *)

Lemma getitems_names cols cs :
  Forall (fun c => lookup c cols <> None) cs ->
  map fst (flat_map (fun c => match lookup c cols with
                              | Some s => [(c, s)]
                              | None => []
                              end) cs) = cs.
Proof.
  induction 1 as [|c cs Hc _ IH]; simpl; [reflexivity|].
  rewrite map_app, IH. destruct (lookup c cols); [reflexivity | contradiction].
Qed.

Lemma getitems_lookup cols cs c :
  In c cs ->
  lookup c (flat_map (fun c => match lookup c cols with
                               | Some s => [(c, s)]
                               | None => []
                               end) cs) = lookup c cols.
Proof.
  induction cs as [|c' cs IH]; simpl; [contradiction|].
  intros Hin. destruct (String.eqb c c') eqn:E.
  - apply String.eqb_eq in E. subst c'.
    destruct (lookup c cols) eqn:Hc; simpl; [now rewrite String.eqb_refl|].
    clear IH Hin. induction cs as [|c' cs IH]; simpl; [reflexivity|].
    destruct (lookup c' cols) eqn:Hc'; simpl; [|exact IH].
    destruct (String.eqb c c') eqn:E'; [|exact IH].
    apply String.eqb_eq in E'. congruence.
  - destruct Hin as [->|Hin]; [now rewrite String.eqb_refl in E|].
    destruct (lookup c' cols); simpl; [rewrite E|]; auto.
Qed.

(** X4.  Selecting a list of columns either returns a table with exactly
    the listed labels in the listed order, each column as it was and the
    rows untouched, or raises KeyError with the listed labels that the
    table lacks, in the listed order, of which there is at least one. *)
Theorem getitems_all_or_key_error (df : DataFrame) (cs : list string) :
  match getitems df cs with
  | Ok t =>
      names t = cs /\ nrows t = nrows df /\
      forall c, In c cs ->
                has_column df c = true /\ getitem t c = getitem df c
  | Raise e =>
      e = KeyError (filter (fun c => negb (has_column df c)) cs) /\
      exists c, In c cs /\ has_column df c = false
  end.
Proof.
  unfold getitems.
  destruct (filter (fun c => negb (has_column df c)) cs) as [|c missing] eqn:E.
  - assert (Hall : forall c, In c cs -> has_column df c = true).
    { intros c Hc. destruct (has_column df c) eqn:Hh; [reflexivity|].
      assert (Hin : In c (filter (fun c => negb (has_column df c)) cs))
        by (apply filter_In; now rewrite Hh).
      rewrite E in Hin. contradiction. }
    split; [|split; [reflexivity|]].
    + unfold names. simpl. apply getitems_names. apply Forall_forall.
      intros c Hc. specialize (Hall c Hc). unfold has_column in Hall.
      now destruct (lookup c (columns df)).
    + intros c Hc. split; [now apply Hall|].
      unfold getitem. simpl. now rewrite getitems_lookup.
  - split; [reflexivity|]. exists c.
    assert (Hin : In c (filter (fun c => negb (has_column df c)) cs))
      by (rewrite E; now left).
    apply filter_In in Hin as [Hin Hc]. split; [exact Hin|].
    now destruct (has_column df c).
Qed.

(** ** Counts and labels *)

Lemma count_Forall2 {A B} (p : A -> bool) (q : B -> bool) xs ys :
  Forall2 (fun x y => p x = q y) xs ys -> count p xs = count q ys.
Proof.
  unfold count. induction 1 as [|x y xs ys Hxy _ IH]; simpl; [reflexivity|].
  rewrite Hxy. destruct (q y); simpl; now rewrite IH.
Qed.

Lemma count_three {A} (p q r : A -> bool) l :
  Forall (fun x => match p x, q x, r x with
                   | true, false, false | false, true, false | false, false, true => True
                   | _, _, _ => False
                   end) l ->
  count p l + count q l + count r l = List.length l.
Proof.
  unfold count. induction 1 as [|x l Hx _ IH]; simpl; [reflexivity|].
  destruct (p x), (q x), (r x); try contradiction; simpl; lia.
Qed.

Lemma count_map {A B} (g : A -> B) (p : B -> bool) l :
  count p (map g l) = count (fun x => p (g x)) l.
Proof.
  unfold count. induction l as [|x l IH]; simpl; [reflexivity|].
  destruct (p (g x)); simpl; now rewrite IH.
Qed.

Lemma count_ext {A} (p q : A -> bool) l :
  Forall (fun x => p x = q x) l -> count p l = count q l.
Proof.
  unfold count. induction 1 as [|x l Hx _ IH]; simpl; [reflexivity|].
  rewrite Hx. destruct (q x); simpl; now rewrite IH.
Qed.

Lemma nrows_loc df (l : list cell) :
  List.length l = nrows df ->
  nrows (loc df (map gtb_1 l)) = count gtb_1 l /\
  nrows (loc df (map leb_1 l)) = count leb_1 l.
Proof.
  intros H. unfold loc, on_rows, count. cbn [nrows].
  split; rewrite <- select_map_self; apply select_length; now rewrite length_seq.
Qed.

(** A number is greater than 1, at most 1, or missing, and only one of
    the three. *)
Lemma number_trichotomy x :
  (forall s, x <> CStr s) ->
  gt_1 x = Ok (gtb_1 x) /\ le_1 x = Ok (leb_1 x) /\
  match gtb_1 x, leb_1 x, isna x with
  | true, false, false | false, true, false | false, false, true => True
  | _, _, _ => False
  end.
Proof.
  intros Hx. destruct x as [z|f|b|s]; [| | |now contradiction (Hx s)];
    unfold gtb_1, leb_1; simpl; repeat split.
  - rewrite Z.leb_antisym. now destruct (1 <? z)%Z.
  - destruct (float_isna f) eqn:Hf.
    + now destruct f.
    + rewrite (SFltb_negb_SFleb one f) by auto. now destruct (SFleb f one).
  - now destruct b.
Qed.

Lemma labelled_cell x y :
  regulation x = Ok y ->
  (forall s, x <> CStr s) /\
  gtb_1 x = cell_eqb (CStr "Up") (CStr y) /\
  negb (gtb_1 x) = cell_eqb (CStr "Down") (CStr y).
Proof.
  unfold regulation, gtb_1. destruct (gt_1 x) as [[|]|] eqn:E; cbn [rbind]; intros H;
    try discriminate; injection H as <-;
    (split; [intros s ->; discriminate | split; reflexivity]).
Qed.

Lemma labelled_cells xs ys :
  Forall2 (fun x y => regulation x = Ok y) xs ys ->
  Forall (fun x => forall s, x <> CStr s) xs /\
  Forall2 (fun x y => gtb_1 x = cell_eqb (CStr "Up") (CStr y)) xs ys /\
  Forall2 (fun x y => negb (gtb_1 x) = cell_eqb (CStr "Down") (CStr y)) xs ys.
Proof.
  induction 1 as [|x y xs ys Hxy _ (IH1 & IH2 & IH3)]; [repeat constructor|].
  destruct (labelled_cell _ _ Hxy) as (H1 & H2 & H3).
  repeat split; constructor; auto.
Qed.

(** X5.  On a loaded, well-formed table the count shown as Upregulated is
    the number of rows labelled "Up"; the count shown as Downregulated is
    the number of rows labelled "Down" less the rows whose log2(FC) is
    missing; so the two counts add up to the number of rows less the
    missing ones. *)
Theorem counts_follow_labels_up_to_missing (df0 df : DataFrame) (fc : Series) :
  load_table df0 = Ok df ->
  getitem df0 "log2(FC)" = Ok fc ->
  size fc = nrows df0 ->
  exists up down,
    up_genes df = Ok up /\ down_genes df = Ok down /\
    nrows up = count (cell_eqb (CStr "Up")) (column_cells df "Regulation") /\
    nrows down + count isna (cells fc)
      = count (cell_eqb (CStr "Down")) (column_cells df "Regulation") /\
    nrows up + nrows down + count isna (cells fc) = nrows df.
Proof.
  intros Hload Hfc0 Hsize.
  destruct (load_table_regulation _ _ Hload) as (fc' & ys & Hfc' & Hys & Hreg).
  unfold getitem in Hfc0. rewrite Hfc' in Hfc0. injection Hfc0 as ->.
  pose proof (load_table_fc _ _ _ Hload Hfc') as Hfc.
  destruct (load_table_inv _ _ Hload) as (_ & _ & _ & _ & Hn & _).
  apply mapM_Forall2 in Hys.
  destruct (labelled_cells _ _ Hys) as (Hnum & Hup & Hdown).
  assert (Htri : Forall (fun x => gt_1 x = Ok (gtb_1 x) /\ le_1 x = Ok (leb_1 x) /\
                           match gtb_1 x, leb_1 x, isna x with
                           | true, false, false | false, true, false
                           | false, false, true => True
                           | _, _, _ => False
                           end) (cells fc)).
  { eapply Forall_impl; [|exact Hnum]. apply number_trichotomy. }
  assert (Hgt : gt_1_mask fc = Ok (map gtb_1 (cells fc))).
  { apply mapM_total. eapply Forall_impl; [|exact Htri]. now intros x (H & _). }
  assert (Hle : le_1_mask fc = Ok (map leb_1 (cells fc))).
  { apply mapM_total. eapply Forall_impl; [|exact Htri]. now intros x (_ & H & _). }
  assert (Hlen : List.length (cells fc) = nrows df) by (rewrite Hn; exact Hsize).
  destruct (nrows_loc df (cells fc) Hlen) as [Hnup Hndown].
  assert (Hregs : column_cells df "Regulation" = map CStr ys).
  { unfold column_cells. rewrite Hreg. apply map_obj_cell_Some. }
  assert (Hsum : count gtb_1 (cells fc) + count leb_1 (cells fc) + count isna (cells fc)
                 = List.length (cells fc)).
  { apply count_three. eapply Forall_impl; [|exact Htri]. now intros x (_ & _ & H). }
  assert (Hcup : count (cell_eqb (CStr "Up")) (map CStr ys) = count gtb_1 (cells fc)).
  { rewrite count_map. symmetry. now apply count_Forall2. }
  assert (Hcdown : count (cell_eqb (CStr "Down")) (map CStr ys)
                   = count (fun x => negb (gtb_1 x)) (cells fc)).
  { rewrite count_map. symmetry. now apply count_Forall2. }
  assert (Hneg : count (fun x => negb (gtb_1 x)) (cells fc)
                 = count leb_1 (cells fc) + count isna (cells fc)).
  { assert (H3 : count gtb_1 (cells fc) + count (fun x => negb (gtb_1 x)) (cells fc)
                 + count (fun _ : cell => false) (cells fc) = List.length (cells fc)).
    { apply count_three. apply Forall_forall. intros x _. now destruct (gtb_1 x). }
    assert (H0 : count (fun _ : cell => false) (cells fc) = 0).
    { unfold count. now rewrite filter_none by (apply Forall_forall; auto). }
    lia. }
  exists (loc df (map gtb_1 (cells fc))), (loc df (map leb_1 (cells fc))).
  split; [unfold up_genes, getitem; rewrite Hfc; cbn [rbind]; now rewrite Hgt|].
  split; [unfold down_genes, getitem; rewrite Hfc; cbn [rbind]; now rewrite Hle|].
  rewrite Hregs, Hnup, Hndown, Hcup, Hcdown, Hneg.
  repeat split; lia.
Qed.

Lemma counts_follow_labels_up_to_missing_witness :
  exists df up down,
    load_table hub_flags = Ok df /\
    up_genes df = Ok up /\ down_genes df = Ok down /\
    nrows up = 1 /\ nrows down = 2 /\ nrows df = 4 /\
    count (cell_eqb (CStr "Down")) (column_cells df "Regulation") = 3.
Proof.
  destruct (counts_follow_labels_up_to_missing
              hub_flags
              (match load_table hub_flags with Ok df => df | Raise _ => hub_flags end)
              (Float64 [f2_3; fm1_5; S754_nan; f0_5]) eq_refl eq_refl eq_refl)
    as (up & down & Hup & Hdown & _).
  do 3 eexists. split; [reflexivity|]. split; [exact Hup|]. split; [exact Hdown|].
  injection Hup as <-. injection Hdown as <-. repeat split.
Defined.

(** ** Hub genes *)

Lemma lower_char_yes c :
  (lower_char c = "y"%char -> c = "y"%char \/ c = "Y"%char) /\
  (lower_char c = "e"%char -> c = "e"%char \/ c = "E"%char) /\
  (lower_char c = "s"%char -> c = "s"%char \/ c = "S"%char).
Proof.
  destruct c as [[] [] [] [] [] [] [] []]; vm_compute;
    repeat split; intros H; try discriminate H; auto.
Qed.

(** X6.  A hub flag counts exactly when it is one of the eight spellings
    of "yes" in upper and lower case; a missing flag never counts. *)
Theorem is_yes_iff_spelling_of_yes (o : option string) :
  is_yes o = true <-> exists s, o = Some s /\ In s yes_spellings.
Proof.
  split.
  - destruct o as [s|]; simpl; [|discriminate]. intros H. apply String.eqb_eq in H.
    exists s. split; [reflexivity|].
    destruct s as [|c1 [|c2 [|c3 [|c4 s]]]]; simpl in H; try discriminate.
    injection H as H1 H2 H3.
    apply (proj1 (lower_char_yes c1)) in H1.
    apply (proj1 (proj2 (lower_char_yes c2))) in H2.
    apply (proj2 (proj2 (lower_char_yes c3))) in H3.
    destruct H1 as [-> | ->], H2 as [-> | ->], H3 as [-> | ->]; simpl; tauto.
  - intros (s & -> & Hs). simpl in Hs.
    repeat (destruct Hs as [<-|Hs]; [reflexivity|]). contradiction.
Qed.

(** X7.  The hub-gene count is the number of flags of the IsHub column
    that spell "yes", whatever their case, and so never exceeds the
    number of rows; it is computed for a column of strings only: on a
    numeric or boolean IsHub column the accessor [.str] raises
    AttributeError. *)
Theorem hub_count_counts_yes_flags (df : DataFrame) (hub : Series) :
  getitem df "IsHub" = Ok hub ->
  size hub = nrows df ->
  match hub with
  | Object v =>
      exists t, hub_genes df = Ok t /\ nrows t = count is_yes v /\ nrows t <= nrows df
  | _ => hub_genes df = Raise AttributeError
  end.
Proof.
  intros Hhub Hsize. unfold hub_genes. rewrite Hhub. simpl.
  destruct hub as [v|v|v|v]; try reflexivity. simpl.
  eexists. split; [reflexivity|].
  assert (Hn : nrows (loc df (map is_yes v)) = count is_yes v).
  { unfold loc, on_rows, count. cbn [nrows]. rewrite <- select_map_self.
    apply select_length. rewrite length_seq. unfold size in Hsize. simpl in Hsize.
    now rewrite length_map in Hsize. }
  split; [exact Hn|]. rewrite Hn. unfold count, size in *. simpl in Hsize.
  rewrite length_map in Hsize. rewrite <- Hsize. apply filter_length_le.
Qed.

Lemma hub_count_counts_yes_flags_witness :
  getitem hub_flags "IsHub" = Ok (Object [Some "Yes"; Some "no"; None; Some "YES"]) /\
  exists t, hub_genes hub_flags = Ok t /\ nrows t = 2.
Proof.
  split; [reflexivity|].
  destruct (hub_count_counts_yes_flags
              hub_flags (Object [Some "Yes"; Some "no"; None; Some "YES"])
              eq_refl eq_refl) as (t & Ht & Hn & _).
  exists t. split; [exact Ht | exact Hn].
Defined.

(** ** The rows counted as downregulated *)

Lemma le_1_mask_numeric fc :
  is_numeric fc = true -> le_1_mask fc = Ok (map leb_1 (cells fc)).
Proof.
  intros H. apply mapM_total. apply Forall_forall. intros x Hx.
  destruct fc; try discriminate; simpl in Hx; apply in_map_iff in Hx as (a & <- & _);
    reflexivity.
Qed.

Lemma leb_1_not_gtb_1 x : leb_1 x = true -> gtb_1 x = false.
Proof.
  destruct x as [z|f|b|s]; unfold leb_1, gtb_1; simpl; intros H; try discriminate.
  - apply Z.leb_le in H. apply Z.ltb_ge. exact H.
  - destruct (SFleb_present _ _ H) as [Hf _].
    rewrite (SFltb_negb_SFleb one f) by auto. now rewrite H.
  - now destruct b.
Qed.

Lemma selected_are_down xs ys :
  Forall2 (fun x y => regulation x = Ok y) xs ys ->
  Forall (eq (CStr "Down")) (select (map leb_1 xs) (map CStr ys)).
Proof.
  induction 1 as [|x y xs ys Hxy _ IH]; simpl; [constructor|].
  destruct (leb_1 x) eqn:E; [|exact IH]. constructor; [|exact IH].
  apply leb_1_not_gtb_1 in E. unfold regulation in Hxy. unfold gtb_1 in E.
  destruct (gt_1 x) as [[|]|]; cbn [rbind] in Hxy; try discriminate.
  now injection Hxy as <-.
Qed.

(** The positions kept by [nsmallest] on a numeric column whose values
    are all at most 1. *)
Lemma nsmallest_idx_spec n s :
  is_numeric s = true -> Forall (fun x => leb_1 x = true) (cells s) ->
  exists idx,
    nsmallest_idx n s = Ok idx /\
    List.length idx <= n /\ NoDup idx /\
    Forall (fun p => p < List.length (cells s)) idx /\
    (forall i j p q, i < j -> nth_error idx i = Some p -> nth_error idx j = Some q ->
       exists x y, nth_error (cells s) p = Some x /\ nth_error (cells s) q = Some y /\
                   cell_leb x y = true /\ (cell_leb y x = true -> p < q)) /\
    (forall p q x y, nth_error (cells s) p = Some x -> ~ In p idx -> In q idx ->
                     nth_error (cells s) q = Some y -> cell_leb y x = true).
Proof.
  intros Hnum Hle. destruct s as [v|v|v|v]; try discriminate; simpl in *;
    eexists; (split; [reflexivity|]).
  - assert (Hna : Forall (fun a : Z => never a = false) v) by (apply Forall_forall; auto).
    repeat split.
    + now apply select_n_length.
    + now apply select_n_NoDup.
    + apply Forall_forall. intros p Hp. rewrite length_map. eapply select_n_bound; eauto.
    + apply select_n_sorted with (leb := fun u w => cell_leb w u) (isna := never);
        auto; intros; simpl in *; lia.
    + apply select_n_maximal with (leb := fun u w => cell_leb w u) (isna := never);
        auto; intros; simpl in *; lia.
  - assert (Hna : Forall (fun a => float_isna a = false) v).
    { rewrite Forall_forall in *. intros a Ha. specialize (Hle (CFloat a) (in_map _ _ _ Ha)).
      destruct a; try reflexivity. discriminate. }
    assert (Htot : forall a b, float_isna a = false -> float_isna b = false ->
                               SFleb a b = false -> SFleb b a = true)
      by (intros; now apply SFleb_total).
    assert (Htr : forall a b c, SFleb a b = true -> SFleb b c = true -> SFleb a c = true)
      by (intros; eapply SFleb_trans; eauto).
    repeat split.
    + now apply select_n_length.
    + now apply select_n_NoDup.
    + apply Forall_forall. intros p Hp. rewrite length_map. eapply select_n_bound; eauto.
    + apply select_n_sorted with (leb := fun u w => cell_leb w u) (isna := float_isna);
        auto.
    + apply select_n_maximal with (leb := fun u w => cell_leb w u) (isna := float_isna);
        auto.
  - assert (Hna : Forall (fun a : bool => never a = false) v) by (apply Forall_forall; auto).
    repeat split.
    + now apply select_n_length.
    + now apply select_n_NoDup.
    + apply Forall_forall. intros p Hp. rewrite length_map. eapply select_n_bound; eauto.
    + apply select_n_sorted with (leb := fun u w => cell_leb w u) (isna := never); auto.
      * now intros [] [].
      * now intros [] [] [].
    + apply select_n_maximal with (leb := fun u w => cell_leb w u) (isna := never); auto.
      * now intros [] [].
      * now intros [] [] [].
Qed.

Lemma down_mask_implies_label xs ys :
  Forall2 (fun x y => regulation x = Ok y) xs ys ->
  Forall2 (fun (b : bool) r => b = true -> r = CStr "Down") (map leb_1 xs) (map CStr ys).
Proof.
  induction 1 as [|x y xs ys Hxy _ IH]; simpl; constructor; auto.
  intros E. apply leb_1_not_gtb_1 in E. unfold regulation in Hxy. unfold gtb_1 in E.
  destruct (gt_1 x) as [[|]|]; cbn [rbind] in Hxy; try discriminate.
  now injection Hxy as <-.
Qed.

(** X8.  On a loaded table with a numeric log2(FC) column, the top
    downregulated genes are at most 5 of the rows with log2(FC) <= 1,
    each labelled "Down", without repetition, in ascending order of
    log2(FC), rows with equal log2(FC) in table order; no row with
    log2(FC) <= 1 that was left out has a smaller log2(FC) than a
    returned one.  A row whose log2(FC) is missing is never among
    them. *)
Theorem top_down_smallest_first (df0 df : DataFrame) (fc : Series) :
  load_table df0 = Ok df ->
  getitem df0 "log2(FC)" = Ok fc ->
  is_numeric fc = true ->
  exists mask down top idx,
    down_genes df = Ok down /\ down = loc df mask /\
    Forall2 (fun (b : bool) r => b = true -> r = CStr "Down")
            mask (column_cells df "Regulation") /\
    nsmallest 5 "log2(FC)" down = Ok top /\ top = take down idx /\
    nrows top <= 5 /\
    List.length (column_cells top "Regulation") = List.length idx /\
    Forall (eq (CStr "Down")) (column_cells top "Regulation") /\
    NoDup idx /\
    column_cells top "log2(FC)" = take_list idx (column_cells down "log2(FC)") /\
    List.length (column_cells top "log2(FC)") = List.length idx /\
    Forall (fun x => isna x = false) (column_cells down "log2(FC)") /\
    (forall i j p q,
        i < j -> nth_error idx i = Some p -> nth_error idx j = Some q ->
        exists x y,
          nth_error (column_cells down "log2(FC)") p = Some x /\
          nth_error (column_cells down "log2(FC)") q = Some y /\
          cell_leb x y = true /\ (cell_leb y x = true -> p < q)) /\
    (forall p q x y,
        nth_error (column_cells down "log2(FC)") p = Some x -> ~ In p idx ->
        In q idx -> nth_error (column_cells down "log2(FC)") q = Some y ->
        cell_leb y x = true).
Proof.
  intros Hload Hfc0 Hnum.
  destruct (load_table_regulation _ _ Hload) as (fc' & ys & Hfc' & Hys & Hreg).
  unfold getitem in Hfc0. rewrite Hfc' in Hfc0. injection Hfc0 as ->.
  pose proof (load_table_fc _ _ _ Hload Hfc') as Hfc.
  apply mapM_Forall2 in Hys.
  set (mask := map leb_1 (cells fc)).
  set (down := loc df mask).
  set (fcd := on_values (fun A => @select A mask) fc).
  assert (Hdown : down_genes df = Ok down).
  { unfold down_genes, getitem. rewrite Hfc. cbn [rbind]. now rewrite le_1_mask_numeric. }
  assert (Hfcd : lookup "log2(FC)" (columns down) = Some fcd).
  { unfold down, loc. now rewrite lookup_on_rows, Hfc. }
  assert (Hkeys : column_cells down "log2(FC)" = cells fcd).
  { unfold column_cells. now rewrite Hfcd. }
  assert (Hregs : column_cells df "Regulation" = map CStr ys).
  { unfold column_cells. rewrite Hreg. apply map_obj_cell_Some. }
  assert (Hregd : column_cells down "Regulation" = select mask (map CStr ys)).
  { unfold down. now rewrite column_cells_loc, Hregs. }
  assert (Hnumd : is_numeric fcd = true) by (now destruct fc).
  assert (Hle : Forall (fun x => leb_1 x = true) (cells fcd)).
  { unfold fcd. rewrite cells_select. unfold mask. rewrite select_map_self.
    apply Forall_forall. intros x Hx. now apply filter_In in Hx. }
  destruct (nsmallest_idx_spec 5 fcd Hnumd Hle)
    as (idx & Hidx & Hlen & Hnd & Hbound & Hsorted & Hmin).
  assert (Hlend : List.length (column_cells down "Regulation") = List.length (cells fcd)).
  { rewrite Hregd. unfold fcd. rewrite cells_select. apply select_length.
    rewrite length_map. symmetry. eapply Forall2_length; eauto. }
  exists mask, down, (take down idx), idx.
  split; [exact Hdown|]. split; [reflexivity|].
  split; [rewrite Hregs; now apply down_mask_implies_label|].
  split; [unfold nsmallest, getitem; rewrite Hfcd; cbn [rbind]; now rewrite Hidx|].
  split; [reflexivity|].
  split; [unfold take, on_rows; cbn [nrows];
          pose proof (take_list_length_le idx (seq 0 (nrows down))); lia|].
  rewrite !column_cells_take, Hkeys.
  split; [apply take_list_length; now rewrite Hlend|].
  split.
  { apply Forall_forall. intros r Hr. apply take_list_In in Hr. rewrite Hregd in Hr.
    pose proof (selected_are_down _ _ Hys) as Hall. rewrite Forall_forall in Hall. auto. }
  split; [exact Hnd|]. split; [reflexivity|].
  split; [now apply take_list_length|].
  split.
  { eapply Forall_impl; [|exact Hle]. intros x Hx.
    destruct x as [z|f|b|s]; try reflexivity. now destruct f. }
  split; [exact Hsorted | exact Hmin].
Qed.

Lemma top_down_smallest_first_witness :
  exists df,
    load_table nine_genes = Ok df /\
    exists down top,
      down_genes df = Ok down /\ nsmallest 5 "log2(FC)" down = Ok top /\
      column_cells top "Gene_Symbol" = map CStr ["H"; "C"] /\
      Forall (eq (CStr "Down")) (column_cells top "Regulation").
Proof.
  eexists. split; [reflexivity|].
  destruct (top_down_smallest_first nine_genes _
              (Float64 [f2_3; f4_0; f0_5; f2_3; f3_5; f2_0; f4_0; fm1_5; f2_3])
              eq_refl eq_refl eq_refl)
    as (mask & down & top & idx & Hdown & _ & _ & Htop & _ & _ & _ & Hall & _).
  exists down, top. split; [exact Hdown|]. split; [exact Htop|]. split; [|exact Hall].
  injection Hdown as <-. injection Htop as <-. reflexivity.
Defined.

(** ** One lookup *)

(** X9.  A pass of the annotation loop sends one request and then either
    returns, having added exactly one line that starts with the gene in
    bold, or raises, having added nothing. *)
Theorem annotate_adds_one_line_or_raises
        (env : Env) (gene : cell) (st st' : Session) (r : result unit) :
  annotate env gene st = (st', r) ->
  sent st' = sent st ++ [lookup_request env gene] /\
  match r with
  | Ok _ =>
      exists text,
        out st' = out st ++ [Markdown ("**" ++ py_str env gene ++ "** - " ++ text)]
  | Raise _ => out st' = out st
  end.
Proof.
  unfold annotate, bind, request, lift, emit. cbn [out sent]. intros H.
  repeat match type of H with
         | context [match ?x with _ => _ end] => destruct x; cbn [out sent] in H
         end;
    injection H as <- <-; (split; [reflexivity|]); cbn [out sent];
    try reflexivity; eexists; reflexivity.
Qed.

Lemma annotate_adds_one_line_or_raises_witness :
  annotate (example_env (Ok tp53_brca1) unreachable unreachable) (CStr "TP53") start
    = (mkSession [Markdown "**TP53** - No match found."]
                 [GET "https://mygene.info/v3/query?q=TP53&species=human" []],
       Ok tt) /\
  exists text, [Markdown "**TP53** - No match found."]
               = [] ++ [Markdown ("**" ++ "TP53" ++ "** - " ++ text)].
Proof.
  split; [reflexivity|].
  exact (proj2 (annotate_adds_one_line_or_raises
                  (example_env (Ok tp53_brca1) unreachable unreachable) (CStr "TP53")
                  start _ (Ok tt) eq_refl)).
Defined.

(** ** The loop *)

Lemma for_each_app {A} (body : A -> M unit) l1 l2 st :
  for_each body (l1 ++ l2) st =
  match for_each body l1 st with
  | (st1, Ok _) => for_each body l2 st1
  | (st1, Raise e) => (st1, Raise e)
  end.
Proof.
  revert st. induction l1 as [|x l1 IH]; intros st; simpl; [reflexivity|].
  unfold bind. destruct (body x st) as [st1 [[]|e]]; [apply IH | reflexivity].
Qed.

Section Loop.
Variable env : Env.

Lemma annotate_refused gene st resp :
  http env (List.length (sent st)) (lookup_request env gene) = Ok resp ->
  status_code resp <> 200%Z ->
  annotate env gene st =
    (mkSession (out st ++ [Markdown ("**" ++ py_str env gene ++ "** - Request failed.")])
               (sent st ++ [lookup_request env gene]), Ok tt).
Proof.
  intros Hresp Hstatus. unfold annotate, bind, request. cbn [out sent]. rewrite Hresp.
  apply Z.eqb_neq in Hstatus. rewrite Hstatus. reflexivity.
Qed.

Lemma for_each_refused genes st :
  (forall k g, In g genes ->
     exists resp, http env k (lookup_request env g) = Ok resp /\
                  status_code resp <> 200%Z) ->
  for_each (annotate env) genes st =
    (mkSession
       (out st ++ map (fun g => Markdown ("**" ++ py_str env g ++ "** - Request failed."))
                      genes)
       (sent st ++ map (lookup_request env) genes), Ok tt).
Proof.
  revert st. induction genes as [|g genes IH]; intros st Hall; simpl.
  - rewrite !app_nil_r. now destruct st.
  - destruct (Hall (List.length (sent st)) g (or_introl eq_refl)) as (resp & Hresp & Hst).
    unfold bind. rewrite (annotate_refused _ _ _ Hresp Hst).
    rewrite IH by (intros k g' Hg'; apply Hall; now right).
    cbn [out sent]. now rewrite <- !app_assoc.
Qed.
End Loop.

(** X10.  A lookup that is answered with a status other than 200 is not
    fatal: when every lookup is answered so, the annotation section
    returns normally, having sent one request per identifier and shown
    the header followed by one "Request failed." line per identifier, in
    the order of the identifiers. *)
Theorem refused_lookups_leave_placeholders
        (env : Env) (df : DataFrame) (genes : list cell) (st : Session) :
  gene_list df = Ok genes ->
  (forall k g, In g genes ->
     exists resp, http env k (lookup_request env g) = Ok resp /\
                  status_code resp <> 200%Z) ->
  annotation_section env df st =
    (mkSession
       (out st ++ Subheader "🧬 Gene Annotations (from MyGene.info)"
               :: map (fun g => Markdown ("**" ++ py_str env g ++ "** - Request failed."))
                      genes)
       (sent st ++ map (lookup_request env) genes),
     Ok tt).
Proof.
  intros Hgenes Hall. unfold annotation_section, bind at 1, emit. cbn [out sent].
  unfold bind, lift. rewrite Hgenes. rewrite (for_each_refused env genes _ Hall).
  cbn [out sent]. now rewrite <- app_assoc.
Qed.

Lemma refused_lookups_leave_placeholders_witness :
  gene_list tp53_brca1_loaded = Ok [CStr "TP53"; CStr "BRCA1"] /\
  annotation_section (refusing_env (Ok tp53_brca1)) tp53_brca1_loaded start =
    (mkSession [Subheader "🧬 Gene Annotations (from MyGene.info)";
                Markdown "**TP53** - Request failed.";
                Markdown "**BRCA1** - Request failed."]
               [GET "https://mygene.info/v3/query?q=TP53&species=human" [];
                GET "https://mygene.info/v3/query?q=BRCA1&species=human" []],
     Ok tt).
Proof.
  split; [reflexivity|].
  apply (refused_lookups_leave_placeholders
           (refusing_env (Ok tp53_brca1)) tp53_brca1_loaded
           [CStr "TP53"; CStr "BRCA1"] start eq_refl).
  intros k g _. eexists. split; [reflexivity | discriminate].
Defined.

(** X11.  The first lookup that raises (no connection, a body that is not
    JSON, a body without "hits", ...) ends the annotation section with
    that exception: the identifiers before it have been looked up, it has
    been requested, nothing is rendered for it, and no later identifier
    is looked up. *)
Theorem first_raising_lookup_ends_the_annotation
        (env : Env) (df : DataFrame) (done rest : list cell) (g : cell)
        (st st1 st2 : Session) (e : exn) :
  gene_list df = Ok (done ++ g :: rest) ->
  for_each (annotate env) done
           (mkSession (out st ++ [Subheader "🧬 Gene Annotations (from MyGene.info)"])
                      (sent st))
    = (st1, Ok tt) ->
  annotate env g st1 = (st2, Raise e) ->
  annotation_section env df st = (st2, Raise e) /\
  out st2 = out st1 /\
  sent st2 = sent st ++ map (lookup_request env) (done ++ [g]).
Proof.
  intros Hgenes Hdone Hg.
  split.
  - unfold annotation_section, bind at 1, emit. cbn [out sent].
    unfold bind at 1, lift. rewrite Hgenes. rewrite for_each_app, Hdone.
    simpl. unfold bind. now rewrite Hg.
  - destruct (for_each_annotate_sent env _ _ _ _ Hdone) as (k & _ & Hsent & Hall).
    rewrite (Hall eq_refl), firstn_all in Hsent. cbn [sent] in Hsent.
    pose proof (annotate_sent env _ _ _ _ Hg) as Hsent2.
    assert (Hout : exists shown, out st2 = out st1 ++ shown /\ shown = []).
    { unfold annotate, bind, request, lift, emit in Hg. cbn [out sent] in Hg.
      repeat match type of Hg with
             | context [match ?x with _ => _ end] => destruct x; cbn [out sent] in Hg
             end;
        try discriminate; injection Hg as <- _; exists []; now rewrite app_nil_r. }
    destruct Hout as (shown & Hout & ->). rewrite app_nil_r in Hout.
    split; [exact Hout|]. rewrite Hsent2, Hsent, map_app, <- app_assoc. reflexivity.
Qed.

Lemma first_raising_lookup_ends_the_annotation_witness :
  let env := mkEnv (fun _ => Ok tp53_brca1) (fun _ => "csv")
                   (fun k _ => if (k =? 0)%nat then Ok no_hits else unreachable)
                   (fun _ => "float") (fun _ => "json") (fun _ => "exception")
                   (fun ps => Ok []) (fun _ _ => Ok tt) in
  annotation_section env tp53_brca1_loaded start =
    (mkSession [Subheader "🧬 Gene Annotations (from MyGene.info)";
                Markdown "**TP53** - No match found."]
               [lookup_request env (CStr "TP53"); lookup_request env (CStr "BRCA1")],
     Raise (LibraryError "ConnectionError")).
Proof.
  intros env.
  apply (first_raising_lookup_ends_the_annotation
           env tp53_brca1_loaded [CStr "TP53"] [] (CStr "BRCA1") start
           (mkSession [Subheader "🧬 Gene Annotations (from MyGene.info)";
                       Markdown "**TP53** - No match found."]
                      [lookup_request env (CStr "TP53")])
           _ (LibraryError "ConnectionError")); reflexivity.
Defined.

(** ** Identifiers looked up and identifiers submitted *)

Lemma select_In {A} mask (l : list A) x : In x (select mask l) -> In x l.
Proof.
  revert l. induction mask as [|b mask IH]; intros [|y l]; simpl; try contradiction.
  destruct b; simpl; [intros [->|H]; auto | auto].
Qed.

(** X12.  The list submitted to Enrichr has one entry per row with a
    Gene_Symbol, repeats included and without the cap of 10, and every
    identifier that is looked up for annotation is among its entries. *)
Theorem looked_up_genes_are_among_the_submitted
        (env : Env) (df : DataFrame) (g : Series) :
  getitem df "Gene_Symbol" = Ok g ->
  exists genes symbols,
    gene_list df = Ok genes /\
    gene_symbols env df = Ok symbols /\
    List.length symbols = count (fun x => negb (isna x)) (cells g) /\
    incl (map (py_str env) genes) symbols.
Proof.
  intros Hg. unfold gene_list, gene_symbols. rewrite Hg. cbn [rbind].
  do 2 eexists. split; [reflexivity|]. split; [reflexivity|].
  split; [now rewrite length_map|].
  intros s Hs. apply in_map_iff in Hs as (x & <- & Hx). apply in_map.
  apply In_firstn in Hx. unfold unique in Hx.
  destruct (unique_from_select [] (dropna (cells g))) as [mask Hmask].
  rewrite Hmask in Hx. now apply select_In in Hx.
Qed.

Lemma looked_up_genes_are_among_the_submitted_witness :
  exists genes symbols,
    gene_list five_hundred_genes = Ok genes /\
    gene_symbols (example_env (Ok five_hundred_genes) unreachable unreachable)
                 five_hundred_genes = Ok symbols /\
    List.length symbols = 500 /\ List.length genes = 10.
Proof.
  destruct (looked_up_genes_are_among_the_submitted
              (example_env (Ok five_hundred_genes) unreachable unreachable)
              five_hundred_genes
              (Object (map (fun i => Some ("GENE" ++ string_of_nat i)%string) (seq 0 500)))
              eq_refl)
    as (genes & symbols & Hgenes & Hsymbols & Hlen & _).
  exists genes, symbols. split; [exact Hgenes|]. split; [exact Hsymbols|].
  split.
  - rewrite Hlen. vm_compute. reflexivity.
  - vm_compute in Hgenes. injection Hgenes as <-. reflexivity.
Defined.

(** ** The two Enrichr calls *)

Section Enrichr.
Variable env : Env.

Lemma enrichment_body_sent symbols st st' r :
  enrichment_body env symbols st = (st', r) ->
  sent st' = sent st ++ [add_list_request symbols] \/
  exists add_resp added user_list_id,
    http env (List.length (sent st)) (add_list_request symbols) = Ok add_resp /\
    json_body add_resp = Ok added /\
    subscript added "userListId" = Ok user_list_id /\
    sent st' = sent st ++ [add_list_request symbols; enrich_request user_list_id].
Proof.
  unfold enrichment_body, bind at 1, request at 1. cbn [out sent].
  destruct (http env (List.length (sent st)) (add_list_request symbols))
    as [add_resp|e] eqn:Hadd; [|intros H; injection H as <- _; now left].
  unfold bind at 1, lift at 1.
  destruct (json_body add_resp) as [added|e] eqn:Hadded;
    [|intros H; injection H as <- _; now left].
  unfold bind at 1, lift at 1.
  destruct (subscript added "userListId") as [uid|e] eqn:Hid;
    [|intros H; injection H as <- _; now left].
  intros H. right. exists add_resp, added, uid. repeat split; auto.
  unfold bind, request, lift, emit in H. cbn [out sent] in H.
  repeat match type of H with
         | context [match ?x with _ => _ end] => destruct x; cbn [out sent] in H
         end;
    injection H as <- _; cbn [sent]; now rewrite <- app_assoc.
Qed.

Lemma appends_enrichment_section df : appends (enrichment_section env df).
Proof.
  intros st st' r. unfold enrichment_section, bind at 1, emit at 1. cbn [out sent].
  unfold bind, lift. destruct (gene_symbols env df) as [symbols|e].
  - unfold try_except.
    destruct (enrichment_body env symbols _) as [st2 [[]|e]] eqn:Hbody;
      destruct (quiet_enrichment_body env _ _ _ _ Hbody) as (shown & Hout & _);
      cbn [out] in Hout; unfold emit; intros H; injection H as <- _; cbn [out];
      rewrite Hout, <- ?app_assoc; eauto.
  - intros H. injection H as <- _. cbn [out]. eauto.
Qed.
End Enrichr.

(** X13.  The enrichment section sends the addList request first and at
    most one more request: the enrich request, which is sent exactly when
    the first answer is JSON with a "userListId" and which carries that
    identifier.  Without a Gene_Symbol column it sends nothing. *)
Theorem enrichment_posts_then_queries_with_the_returned_id
        (env : Env) (df : DataFrame) (st st' : Session) (r : result unit) :
  enrichment_section env df st = (st', r) ->
  match gene_symbols env df with
  | Raise _ => sent st' = sent st
  | Ok symbols =>
      sent st' =
        sent st ++ add_list_request symbols
                :: match returned_list_id env symbols (List.length (sent st)) with
                   | Some user_list_id => [enrich_request user_list_id]
                   | None => []
                   end
  end.
Proof.
  unfold enrichment_section, bind at 1, emit at 1. cbn [out sent].
  unfold bind at 1, lift at 1. destruct (gene_symbols env df) as [symbols|e];
    [|intros H; now injection H as <- _].
  unfold try_except, returned_list_id. intros H.
  assert (Hbody : forall st2 r2,
             enrichment_body env symbols
               (mkSession (out st ++ [enrichment_header]) (sent st)) = (st2, r2) ->
             sent st2 =
               sent st ++ add_list_request symbols
                       :: match http env (List.length (sent st)) (add_list_request symbols)
                          with
                          | Ok add_resp =>
                              match json_body add_resp with
                              | Ok added =>
                                  match subscript added "userListId" with
                                  | Ok user_list_id => [enrich_request user_list_id]
                                  | Raise _ => []
                                  end
                              | Raise _ => []
                              end
                          | Raise _ => []
                          end).
  { intros st2 r2. unfold enrichment_body, bind at 1, request at 1. cbn [out sent].
    destruct (http env (List.length (sent st)) (add_list_request symbols)) as [add_resp|];
      [|intros E; now injection E as <- _].
    unfold bind at 1, lift at 1.
    destruct (json_body add_resp) as [added|]; [|intros E; now injection E as <- _].
    unfold bind at 1, lift at 1.
    destruct (subscript added "userListId") as [uid|];
      [|intros E; now injection E as <- _].
    intros E. unfold bind, request, lift, emit in E. cbn [out sent] in E.
    repeat match type of E with
           | context [match ?x with _ => _ end] => destruct x; cbn [out sent] in E
           end;
      injection E as <- _; cbn [sent]; now rewrite <- app_assoc. }
  destruct (enrichment_body env symbols _) as [st2 [[]|e]] eqn:E;
    specialize (Hbody _ _ eq_refl); unfold emit in H; injection H as <- _;
    cbn [sent]; rewrite Hbody;
    destruct (http env (List.length (sent st)) (add_list_request symbols)) as [a|];
    try reflexivity; destruct (json_body a) as [b|]; try reflexivity;
    destruct (subscript b "userListId"); reflexivity.
Qed.

Lemma enrichment_posts_then_queries_with_the_returned_id_witness :
  let env := example_env (Ok tp53_brca1) (Ok list_added) (Ok no_terms) in
  enrichment_section env tp53_brca1_loaded start
    = (mkSession [enrichment_header; Info "No enrichment results found."]
                 [add_list_request ["TP53"; "BRCA1"]; enrich_request (JInt 42)], Ok tt) /\
  [add_list_request ["TP53"; "BRCA1"]; enrich_request (JInt 42)]
    = [] ++ add_list_request ["TP53"; "BRCA1"]
         :: match returned_list_id env ["TP53"; "BRCA1"] 0 with
            | Some user_list_id => [enrich_request user_list_id]
            | None => []
            end.
Proof.
  intros env. split; [reflexivity|].
  exact (enrichment_posts_then_queries_with_the_returned_id
           env tp53_brca1_loaded start _ (Ok tt) eq_refl).
Defined.

(** ** The enrichment table *)

Lemma top_term_long term : long_term term -> top_term term = Ok (term_row term).
Proof.
  destruct term as [| | | | |l|]; simpl; try contradiction. intros H.
  unfold top_term, item.
  do 6 (destruct l as [|? l]; [simpl in H; lia|]). reflexivity.
Qed.

Lemma top_term_short term : short_term term -> top_term term = Raise IndexError.
Proof.
  destruct term as [| | | | |l|]; simpl; try contradiction. intros H.
  unfold top_term, item.
  do 6 (destruct l as [|? l]; [reflexivity|]). simpl in H. lia.
Qed.


Lemma mapM_top_term_short terms :
  Forall is_list terms -> Exists short_term terms ->
  mapM top_term terms = Raise IndexError.
Proof.
  intros Hall Hex. induction Hall as [|t terms Ht _ IH]; [inversion Hex|].
  simpl. destruct t as [| | | | |l|]; try contradiction.
  destruct (Nat.lt_ge_cases (List.length l) 6) as [Hlt|Hge].
  - now rewrite (top_term_short (JList l) Hlt).
  - rewrite (top_term_long (JList l) Hge). cbn [rbind].
    rewrite IH; [reflexivity|]. inversion Hex as [? ? H|? ? H]; subst; [|exact H].
    simpl in H. lia.
Qed.

Section EnrichmentTable.
Variable env : Env.

Lemma enrichment_body_with_terms symbols st user_list_id terms :
  enrichr_answers env symbols (List.length (sent st)) user_list_id terms ->
  enrichment_body env symbols st =
    (if truthy terms then
       terms <- lift (slice_to 5 terms) ;;
       top_terms <- lift (mapM top_term terms) ;;
       emit (Markdown "### Top Enriched KEGG Pathways") ;;
       emit (Records ["Term"; "P-value"; "Genes"] top_terms) ;;
       widths <- lift (neg_log10 env (map (fun r => nth 1 r JNull) top_terms)) ;;
       lift (barh env (map (fun r => nth 0 r JNull) top_terms) widths) ;;
       emit (Pyplot (BarhFig (map (fun r => nth 0 r JNull) top_terms) widths))
     else emit (Info "No enrichment results found."))%M
      (mkSession (out st)
                 (sent st ++ [add_list_request symbols; enrich_request user_list_id])).
Proof.
  intros (add_resp & added & enr_resp & enriched & Hadd & Hadded & Hid & Henr & Henriched
          & Hterms).
  unfold enrichment_body.
  unfold bind at 1, request at 1. cbn [out sent]. rewrite Hadd.
  unfold bind at 1, lift at 1. rewrite Hadded.
  unfold bind at 1, lift at 1. rewrite Hid.
  unfold bind at 1, request at 1. cbn [out sent]. rewrite last_length, Henr.
  unfold bind at 1, lift at 1. rewrite Henriched.
  unfold bind at 1, lift at 1. rewrite Hterms.
  now rewrite <- app_assoc.
Qed.
End EnrichmentTable.



(** X15.  When the terms of the answer are arrays and one of the first
    five has fewer than six entries, no table is shown: the section shows
    its header and one error message, for an IndexError, and returns
    normally. *)
Theorem short_term_gives_an_error_message
        (env : Env) (df : DataFrame) (symbols : list string) (st : Session)
        (user_list_id : json) (terms : list json) :
  gene_symbols env df = Ok symbols ->
  enrichr_answers env symbols (List.length (sent st)) user_list_id (JList terms) ->
  Forall is_list (firstn 5 terms) ->
  Exists short_term (firstn 5 terms) ->
  enrichment_section env df st =
    (mkSession (out st ++ [enrichment_header; enrichment_error env IndexError])
               (sent st ++ [add_list_request symbols; enrich_request user_list_id]),
     Ok tt).
Proof.
  intros Hsymbols Hanswers Hlists Hshort.
  unfold enrichment_section, bind at 1, emit at 1. cbn [out sent].
  unfold bind at 1, lift at 1. rewrite Hsymbols.
  unfold try_except.
  rewrite (enrichment_body_with_terms
             env symbols (mkSession (out st ++ [enrichment_header]) (sent st))
             user_list_id _ Hanswers).
  assert (Htruthy : truthy (JList terms) = true).
  { destruct terms; [inversion Hshort | reflexivity]. }
  rewrite Htruthy. cbn [out sent].
  unfold bind at 1, lift at 1. cbn [slice_to].
  unfold bind at 1, lift at 1. rewrite (mapM_top_term_short _ Hlists Hshort).
  unfold emit. cbn [out sent]. now rewrite <- !app_assoc.
Qed.

Lemma short_term_gives_an_error_message_witness :
  let env := example_env (Ok tp53_brca1) (Ok list_added) (Ok truncated_terms) in
  enrichment_section env tp53_brca1_loaded start =
    (mkSession [enrichment_header; enrichment_error env IndexError]
               [add_list_request ["TP53"; "BRCA1"]; enrich_request (JInt 42)],
     Ok tt).
Proof.
  intros env.
  apply (short_term_gives_an_error_message
           env tp53_brca1_loaded ["TP53"; "BRCA1"] start (JInt 42)
           [term_p53; JList [JInt 2; JStr "Homologous"]]).
  - reflexivity.
  - exists list_added, (JDict [("shortId", JStr "abc"); ("userListId", JInt 42)]),
      truncated_terms,
      (JDict [("KEGG_2021_Human", JList [term_p53; JList [JInt 2; JStr "Homologous"]])]).
    repeat split.
  - repeat constructor.
  - right. left. simpl. lia.
Defined.

(** ** The run as a whole *)

Lemma bind_inv {A B} (m : M A) (k : A -> M B) st st' r :
  bind m k st = (st', r) ->
  (exists e, m st = (st', Raise e) /\ r = Raise e) \/
  (exists a st1, m st = (st1, Ok a) /\ k a st1 = (st', r)).
Proof.
  unfold bind. destruct (m st) as [st1 [a|e]]; intros H.
  - right. eauto.
  - injection H as <- <-. left. eauto.
Qed.

Lemma silent_ret {A} (a : A) : silent (ret a).
Proof. intros st st' r H. now injection H as <- _. Qed.

Lemma silent_lift {A} (x : result A) : silent (lift x).
Proof. intros st st' r H. now injection H as <- _. Qed.

Lemma silent_emit w : silent (emit w).
Proof. intros st st' r H. now injection H as <- _. Qed.

Lemma silent_bind {A B} (m : M A) (k : A -> M B) :
  silent m -> (forall a, silent (k a)) -> silent (bind m k).
Proof.
  intros Hm Hk st st' r H. apply bind_inv in H as [(e & H & _)|(a & st1 & H & H')].
  - eauto.
  - rewrite (Hk _ _ _ _ H'). eauto.
Qed.

Create HintDb silent.
#[local] Hint Resolve silent_ret silent_lift silent_emit : silent.
#[local] Hint Extern 2 (silent (bind _ _)) => apply silent_bind; [|intro] : silent.

Section Run.
Variable env : Env.

Lemma silent_summary_section df : silent (summary_section df).
Proof. unfold summary_section. auto 20 with silent. Qed.

Lemma silent_top_genes_section up down : silent (top_genes_section up down).
Proof. unfold top_genes_section. auto 20 with silent. Qed.

Lemma silent_bar_plot_section up down : silent (bar_plot_section up down).
Proof. unfold bar_plot_section. auto with silent. Qed.

Lemma silent_export_section df : silent (export_section env df).
Proof. unfold export_section. auto with silent. Qed.

Lemma looks_up_after_silent {A B} (m : M A) (k : A -> M B) :
  silent m -> (forall a, looks_up env (k a)) -> looks_up env (bind m k).
Proof.
  intros Hm Hk st st' r H. apply bind_inv in H as [(e & H & _)|(a & st1 & H & H')].
  - exists [], 0. rewrite (Hm _ _ _ H). simpl. split; [lia | now rewrite app_nil_r].
  - destruct (Hk _ _ _ _ H') as (genes & n & Hlen & Hsent).
    exists genes, n. rewrite Hsent, (Hm _ _ _ H). auto.
Qed.

Lemma looks_up_then_silent {A B} (m : M A) (k : A -> M B) :
  looks_up env m -> (forall a, silent (k a)) -> looks_up env (bind m k).
Proof.
  intros Hm Hk st st' r H. apply bind_inv in H as [(e & H & _)|(a & st1 & H & H')].
  - eauto.
  - rewrite (Hk _ _ _ _ H'). eauto.
Qed.

Lemma looks_up_annotation_section df : looks_up env (annotation_section env df).
Proof.
  unfold annotation_section. apply looks_up_after_silent; [auto with silent|]. intros _.
  intros st st' r H. unfold bind, lift in H.
  destruct (gene_list df) as [genes|e] eqn:Hgenes.
  - destruct (for_each_annotate_sent env _ _ _ _ H) as (k & _ & Hsent & _).
    exists genes, k. split; [|exact Hsent].
    unfold gene_list in Hgenes. destruct (getitem df "Gene_Symbol") as [g|]; [|discriminate].
    assert (Hg : genes = firstn 10 (unique (dropna (cells g))))
      by (cbn [rbind] in Hgenes; congruence).
    rewrite Hg, length_firstn. lia.
  - injection H as <- _. exists [], 0. simpl. split; [lia | now rewrite app_nil_r].
Qed.

Lemma looks_up_report_before_enrichment file :
  looks_up env (report_before_enrichment env file).
Proof.
  unfold report_before_enrichment.
  apply looks_up_after_silent; [auto with silent|]. intros df0.
  apply looks_up_after_silent; [auto with silent|]. intros df.
  apply looks_up_after_silent; [auto with silent|]. intros _.
  apply looks_up_after_silent; [apply silent_summary_section|]. intros tables.
  apply looks_up_after_silent; [apply silent_top_genes_section|]. intros _.
  apply looks_up_after_silent; [apply silent_bar_plot_section|]. intros _.
  apply looks_up_then_silent; [apply looks_up_annotation_section|]. intros _.
  auto with silent.
Qed.

Lemma enrichment_section_sent df st st' r :
  enrichment_section env df st = (st', r) ->
  exists enrichr,
    sent st' = sent st ++ enrichr /\ List.length enrichr <= 2 /\
    Forall to_enrichr enrichr.
Proof.
  unfold enrichment_section, bind at 1, emit at 1. cbn [out sent].
  unfold bind, lift. destruct (gene_symbols env df) as [symbols|e].
  - unfold try_except.
    destruct (enrichment_body env symbols _) as [st2 [[]|e]] eqn:Hbody;
      apply enrichment_body_sent in Hbody; cbn [sent] in Hbody;
      unfold emit; intros H; injection H as <- _; cbn [sent];
      destruct Hbody as [Hs|(? & ? & uid & _ & _ & _ & Hs)]; rewrite Hs;
      eexists; (split; [reflexivity|]); simpl; (split; [lia|]); repeat constructor.
  - intros H. injection H as <- _. exists []. rewrite app_nil_r.
    repeat split; [simpl; lia | constructor].
Qed.
End Run.

(** X16.  Once the sections before the enrichment have run, the run
    always returns normally, whatever Enrichr does: the page keeps what
    was rendered and ends with the export header and the download button,
    and the button offers the table as the loader returned it. *)
Theorem run_ends_with_the_download_of_the_loaded_table
        (env : Env) (file : string) (st1 : Session) (df : DataFrame) :
  report_before_enrichment env file (mkSession [title] []) = (st1, Ok df) ->
  exists df0 page st,
    read_csv env file = Ok df0 /\ load_table df0 = Ok df /\
    app env (Some file) start = (st, Ok tt) /\
    out st = out st1 ++ page ++ [Subheader "📄 Export KnowDEGs"; download_button env df].
Proof.
  intros Hbefore.
  destruct (reached_enrichment_has_symbols env _ _ _ _ Hbefore) as (symbols & Hsymbols).
  assert (Hload : exists df0, read_csv env file = Ok df0 /\ load_table df0 = Ok df).
  { pose proof Hbefore as H. unfold report_before_enrichment in H.
    apply bind_Ok in H as (df0 & s0 & Hread & H). apply lift_Ok in Hread as [_ Hread].
    apply bind_Ok in H as (df' & s1 & Hl & H). apply lift_Ok in Hl as [_ Hl].
    repeat (apply bind_Ok in H as (? & ? & _ & H)).
    injection H as _ <-. eauto. }
  destruct Hload as (df0 & Hread & Hload).
  destruct (enrichment_section_returns env df symbols st1 Hsymbols) as (st2 & Henr).
  destruct (appends_enrichment_section env df _ _ _ Henr) as (page & Hpage).
  exists df0, page. eexists. split; [exact Hread|]. split; [exact Hload|].
  split.
  - unfold app, bind at 1, emit at 1. simpl. fold title.
    unfold bind at 1. rewrite Hbefore.
    unfold bind at 1. rewrite Henr.
    unfold export_section, bind, emit. cbn [out sent]. reflexivity.
  - cbn [out]. rewrite Hpage, <- !app_assoc. reflexivity.
Qed.

Lemma run_ends_with_the_download_of_the_loaded_table_witness :
  let env := example_env (Ok tp53_brca1) unreachable unreachable in
  let before := report_before_enrichment env "degs.csv" (mkSession [title] []) in
  before = (fst before, Ok tp53_brca1_loaded) /\
  exists page st,
    app env (Some "degs.csv") start = (st, Ok tt) /\
    out st = out (fst before) ++ page
             ++ [Subheader "📄 Export KnowDEGs"; download_button env tp53_brca1_loaded].
Proof.
  intros env before.
  assert (H : before = (fst before, Ok tp53_brca1_loaded)) by (vm_compute; reflexivity).
  split; [exact H|].
  destruct (run_ends_with_the_download_of_the_loaded_table
              env "degs.csv" (fst before) tp53_brca1_loaded H)
    as (df0 & page & st & _ & _ & Happ & Hout).
  exists page, st. split; [exact Happ | exact Hout].
Defined.

(** X17.  Whatever the upload and whatever the services answer, a run
    sends at most twelve requests: first lookups for a prefix of at most
    ten identifiers, then at most two requests to Enrichr. *)
Theorem a_run_sends_at_most_twelve_requests
        (env : Env) (uploaded_file : option string) (st : Session) (r : result unit) :
  app env uploaded_file start = (st, r) ->
  exists genes k enrichr,
    sent st = map (lookup_request env) (firstn k genes) ++ enrichr /\
    List.length genes <= 10 /\
    List.length enrichr <= 2 /\ Forall to_enrichr enrichr /\
    List.length (sent st) <= 12.
Proof.
  intros H.
  assert (Hgoal : exists genes k enrichr,
             sent st = map (lookup_request env) (firstn k genes) ++ enrichr /\
             List.length genes <= 10 /\
             List.length enrichr <= 2 /\ Forall to_enrichr enrichr).
  { unfold app, bind at 1, emit at 1 in H. simpl in H. fold title in H.
    destruct uploaded_file as [file|];
      [|injection H as <- _; exists [], 0, []; repeat split; simpl; auto; lia].
    apply bind_inv in H as [(e & H & _)|(df & st1 & H & H')];
      destruct (looks_up_report_before_enrichment env file _ _ _ H)
        as (genes & k & Hlen & Hsent); cbn [sent app] in Hsent.
    - exists genes, k, []. rewrite app_nil_r. repeat split; simpl; auto; lia.
    - apply bind_inv in H' as [(e & H' & _)|([] & st2 & H' & H'')];
        destruct (enrichment_section_sent env _ _ _ _ H') as (enrichr & Hs & Hl & Hall).
      + exists genes, k, enrichr. rewrite Hs, Hsent. auto.
      + exists genes, k, enrichr.
        rewrite (silent_export_section env _ _ _ _ H''), Hs, Hsent. auto. }
  destruct Hgoal as (genes & k & enrichr & Hsent & Hlen & Hl & Hall).
  exists genes, k, enrichr. repeat split; auto.
  rewrite Hsent, length_app, length_map, length_firstn. lia.
Qed.

Lemma a_run_sends_at_most_twelve_requests_witness :
  exists st,
    app (example_env (Ok five_hundred_genes) (Ok list_added) (Ok no_terms))
        (Some "degs.csv") start = (st, Ok tt) /\
    List.length (sent st) <= 12.
Proof.
  eexists. split; [vm_compute; reflexivity|].
  match goal with
  | |- List.length (sent ?s) <= 12 =>
      destruct (a_run_sends_at_most_twelve_requests
                  (example_env (Ok five_hundred_genes) (Ok list_added) (Ok no_terms))
                  (Some "degs.csv") s (Ok tt))
        as (_ & _ & _ & _ & _ & _ & _ & H)
  end.
  - vm_compute. reflexivity.
  - exact H.
Defined.
